(** * YouTube transcript generator: the URL resolver and the transcript pipeline

    A shallow embedding of [app.py].  The pure part ([extract_video_id]) is
    embedded as functions on strings, with the three [re.search] patterns run
    by a small backtracking matcher.  The effectful part (the captions
    fetcher, the downloader, the Whisper wrapper and the button handler) is
    embedded in a state-and-exception monad over an explicit file system, a
    log of collaborator calls and a log of what is shown to the user; the
    three external collaborators are parameters of the development.

    Strings are byte strings.  A Python [str] holds code points, but every
    character the code inspects ('&', '?', '/', 'v', '=', the identifier
    alphabet and the literal prefixes) is ASCII, and the UTF-8 encoding of a
    non-ASCII code point contains no ASCII byte, so splitting and matching
    agree on both views. *)

From Stdlib Require Import Ascii String.
From stdpp Require Import base option list strings gmap pretty.



(** ** Python string primitives used by [app.py] *)

Module Py.

(** [c in s] for a one-character needle. *)
Fixpoint contains (c : ascii) (s : string) : bool :=
  match s with
  | EmptyString => false
  | String a t => if Ascii.eqb a c then true else contains c t
  end.

(** [s.split(sep)] for a one-character separator: the pieces between the
    occurrences of [sep], in order; never the empty list. *)
Fixpoint split (sep : ascii) (s : string) : list string :=
  match s with
  | EmptyString => [EmptyString]
  | String a t =>
      if Ascii.eqb a sep then EmptyString :: split sep t
      else match split sep t with
           | p :: ps => String a p :: ps
           | [] => [String a EmptyString]
           end
  end.

(** [l[0]] on the result of a split ([split] never returns []). *)
Definition item0 (l : list string) : string := hd EmptyString l.

(** [s[:n]]. *)
Definition take (n : nat) (s : string) : string := String.substring 0 n s.

(** [s[n:]]. *)
Fixpoint drop (n : nat) (s : string) : string :=
  match n, s with
  | O, _ => s
  | S m, String _ t => drop m t
  | S _, EmptyString => EmptyString
  end.

(** [s.startswith(p)]. *)
Definition startswith (p s : string) : bool := String.prefix p s.

(** [all(f(c) for c in s)]. *)
Fixpoint all (f : ascii -> bool) (s : string) : bool :=
  match s with
  | EmptyString => true
  | String a t => f a && all f t
  end.

(** Truthiness of a [str]: the empty string is falsy. *)
Definition truthy (s : string) : bool :=
  match s with EmptyString => false | String _ _ => true end.

(** Truthiness of a value that is [None] or a [str]. *)
Definition truthy_opt (o : option string) : bool :=
  match o with None => false | Some s => truthy s end.

(** The newline character and ['\n'.join(l)]. *)
Definition nl : string := String "010" EmptyString.
Definition join (sep : string) (l : list string) : string := String.concat sep l.

End Py.

(** ** The fragment of [re] that the three patterns need *)

Module Re.

Inductive regex : Type :=
| Eps                          (* the empty pattern *)
| Chr (c : ascii)              (* a literal character *)
| Cls (p : ascii -> bool)      (* a character class [...] *)
| StarDot                      (* .*  (greedy; . excludes newline) *)
| Cat (r1 r2 : regex)          (* r1 r2 *)
| Alt (r1 r2 : regex)          (* r1|r2, left alternative first *)
| Rep (n : nat) (r : regex).   (* r{n} *)

(** A literal string, character by character. *)
Fixpoint lit (s : string) : regex :=
  match s with
  | EmptyString => Eps
  | String a t => Cat (Chr a) (lit t)
  end.

Definition is_newline (a : ascii) : bool := Ascii.eqb a "010".

(** Backtracking matcher in continuation-passing style: [exec r s k] runs
    [r] at the start of [s] and hands every way of matching, in the
    priority order of [re], to [k] until [k] accepts one. *)
Fixpoint exec {A : Type} (r : regex) (s : string)
    (k : string -> option A) : option A :=
  match r with
  | Eps => k s
  | Chr c =>
      match s with
      | String a t => if Ascii.eqb a c then k t else None
      | EmptyString => None
      end
  | Cls p =>
      match s with
      | String a t => if p a then k t else None
      | EmptyString => None
      end
  | StarDot =>
      (fix star (s : string) : option A :=
         match s with
         | String a t =>
             if is_newline a then k s
             else match star t with
                  | Some x => Some x
                  | None => k s
                  end
         | EmptyString => k EmptyString
         end) s
  | Cat r1 r2 => exec r1 s (fun s' => exec r2 s' k)
  | Alt r1 r2 =>
      match exec r1 s k with
      | Some x => Some x
      | None => exec r2 s k
      end
  | Rep n r' =>
      (fix rep (n : nat) (s : string) : option A :=
         match n with
         | O => k s
         | S m => exec r' s (rep m)
         end) n s
  end.

(** A pattern with exactly one capturing group: [before (group1) after].
    All three patterns of [extract_video_id] have this shape. *)
Record pattern : Type := Pattern {
  before : regex;
  group1 : regex;
  after : regex
}.

(** Match anchored at the start of [s]; the result is [match.group(1)]. *)
Definition match_here (p : pattern) (s : string) : option string :=
  exec (before p) s (fun s1 =>
    exec (group1 p) s1 (fun s2 =>
      exec (after p) s2 (fun _ =>
        Some (Py.take (String.length s1 - String.length s2) s1)))).

(** [re.search(p, s)]: the match at the leftmost position that has one. *)
Fixpoint search (p : pattern) (s : string) : option string :=
  match match_here p s with
  | Some g => Some g
  | None =>
      match s with
      | EmptyString => None
      | String _ t => search p t
      end
  end.

End Re.

(** ** [extract_video_id] (app.py, lines 21-37) *)

Definition in_range (lo hi : ascii) (a : ascii) : bool :=
  (nat_of_ascii lo <=? nat_of_ascii a)%nat && (nat_of_ascii a <=? nat_of_ascii hi)%nat.

(** The class [[0-9A-Za-z_-]]. *)
Definition id_char (a : ascii) : bool :=
  in_range "0" "9" a || in_range "A" "Z" a || in_range "a" "z" a
  || Ascii.eqb a "_" || Ascii.eqb a "-".

Definition id_group : Re.regex := Re.Rep 11 (Re.Cls id_char).

(** r'(?:v=|/)([0-9A-Za-z_-]{11}).*' *)
Definition pattern_v : Re.pattern :=
  Re.Pattern (Re.Alt (Re.lit "v=") (Re.lit "/")) id_group Re.StarDot.

(** r'youtu\.be/([0-9A-Za-z_-]{11})' *)
Definition pattern_short : Re.pattern :=
  Re.Pattern (Re.lit "youtu.be/") id_group Re.Eps.

(** r'embed/([0-9A-Za-z_-]{11})' *)
Definition pattern_embed : Re.pattern :=
  Re.Pattern (Re.lit "embed/") id_group Re.Eps.

Definition patterns : list Re.pattern := [pattern_v; pattern_short; pattern_embed].

(** Line 24: [url.split('&')[0].split('?')[0] if '?' in url else url]. *)
Definition strip_params (url : string) : string :=
  if Py.contains "?" url
  then Py.item0 (Py.split "?" (Py.item0 (Py.split "&" url)))
  else url.

(** Lines 31-37: the loop over the patterns. *)
Fixpoint first_match (ps : list Re.pattern) (url : string) : option string :=
  match ps with
  | [] => None
  | p :: ps' =>
      match Re.search p url with
      | Some video_id =>
          if (String.length video_id =? 11)%nat then Some video_id
          else first_match ps' url
      | None => first_match ps' url
      end
  end.

Definition extract_video_id (url : string) : option string :=
  first_match patterns (strip_params url).

(** ** Exceptions, the file system and the logs *)

(** The result of running Python code that may raise: a value, or an
    [Exception] [e] given by [str(e)].  (Only [Exception] and its subclasses
    are modelled; [except Exception] catches exactly those.) *)
Inductive outcome (A : Type) : Type :=
| Ok (a : A)
| Raise (msg : string).
Arguments Ok {A} a.
Arguments Raise {A} msg.

(** One entry of [fetched_transcript.to_raw_data()]: a dict with the keys
    'text', 'start' and 'duration' (seconds, here in milliseconds); the code
    reads 'text' only. *)
Record entry : Type := Entry {
  text : string;
  start : Z;
  duration : Z
}.

(** The file system as far as the pipeline sees it: the directories that
    exist, each with the names of the files in it. *)
Abbreviation filesystem := (gmap string (list string)).

(** The calls the pipeline makes, in the order it makes them: its three
    stage functions and, inside them, the three external collaborators. *)
Inductive event : Type :=
| Stage_captions (video_url : string)                 (* get_existing_transcript(video_url) *)
| Call_fetch (video_id : string)                      (* ytt_api.fetch(video_id) *)
| Stage_download (video_url output_path : string)     (* download_audio(video_url, output_path) *)
| Call_ydl (video_url outtmpl : string)               (* ydl.download([video_url]) *)
| Stage_transcribe (audio_path model_size : string)   (* transcribe_with_whisper(audio_path, model_size) *)
| Call_whisper (model_size audio_path : string).      (* load_whisper_model(..).transcribe(audio_path) *)

(** What the Streamlit front end is asked to show. *)
Inductive shown : Type :=
| St_status (msg : string)                            (* status_text.text(msg) *)
| St_progress (percent : nat)                         (* progress_bar.progress(percent) *)
| St_success (msg : string)                           (* st.success(msg) *)
| St_error (msg : string)                             (* st.error(msg) *)
| St_info (msg : string)                              (* st.info(msg) *)
| St_text_area (label value : string)                 (* st.text_area(label, value, ...) *)
| St_download_button (label data file_name : string)  (* st.download_button(...) *)
| St_empty_progress                                   (* progress_bar.empty() *)
| St_empty_status.                                    (* status_text.empty() *)

Record state : Type := State {
  fs : filesystem;
  trace : list event;
  ui : list shown
}.

(** The external collaborators of one run. *)
Record world : Type := World {
  (** [YouTubeTranscriptApi().fetch(video_id).to_raw_data()] *)
  ytt_fetch : string -> outcome (list entry);
  (** [yt_dlp.YoutubeDL(opts).download([url])] with [opts['outtmpl']]: what
      it does to the file system, and whether it raises *)
  ydl_download : string -> string -> filesystem -> filesystem * outcome unit;
  (** [load_whisper_model(model_size).transcribe(audio_path)["text"]] *)
  whisper_text : string -> string -> outcome string;
  (** the directory name [tempfile.mkdtemp] picks *)
  tmp_name : string
}.

(** State and exception monad. *)
Definition M (A : Type) : Type := state -> outcome A * state.

#[global] Instance M_ret : MRet M := fun A a st => (Ok a, st).
#[global] Instance M_bind : MBind M := fun A B f m st =>
  match m st with
  | (Ok a, st') => f a st'
  | (Raise e, st') => (Raise e, st')
  end.

(** [try: body except Exception as e: handler(str(e))] *)
Definition try_except {A} (body : M A) (handler : string -> M A) : M A :=
  fun st =>
    match body st with
    | (Ok a, st') => (Ok a, st')
    | (Raise e, st') => handler e st'
    end.

(** [try: body finally: final] *)
Definition try_finally {A} (body : M A) (final : M unit) : M A :=
  fun st =>
    match body st with
    | (r, st') =>
        match final st' with
        | (Ok _, st'') => (r, st'')
        | (Raise e, st'') => (Raise e, st'')
        end
    end.

Definition log (e : event) : M unit :=
  fun st => (Ok tt, State (fs st) (trace st ++ [e]) (ui st)).
Definition show (u : shown) : M unit :=
  fun st => (Ok tt, State (fs st) (trace st) (ui st ++ [u])).

Definition lift_outcome {A} (o : outcome A) : M A := fun st => (o, st).

(** [os.listdir(d)] *)
Definition listdir (d : string) : M (list string) :=
  fun st =>
    match fs st !! d with
    | Some names => (Ok names, st)
    | None => (Raise ("[Errno 2] No such file or directory: '" +:+ d +:+ "'"), st)
    end.

(** [with tempfile.TemporaryDirectory() as temp_dir: body(temp_dir)]:
    the directory is created empty on entry and removed with its contents
    on exit, whether [body] returns or raises. *)
Definition with_temporary_directory {A} (w : world) (body : string -> M A) : M A :=
  fun st =>
    let temp_dir := tmp_name w in
    match body temp_dir (State (<[temp_dir := []]> (fs st)) (trace st) (ui st)) with
    | (r, st') => (r, State (delete temp_dir (fs st')) (trace st') (ui st'))
    end.

(** [os.path.join(a, b)] (POSIX). *)
Definition ends_with_slash (a : string) : bool :=
  match String.get (String.length a - 1) a with
  | Some c => Ascii.eqb c "/"
  | None => false
  end.
Definition path_join (a b : string) : string :=
  if Py.startswith "/" b then b
  else if negb (Py.truthy a) || ends_with_slash a then a +:+ b
  else a +:+ "/" +:+ b.

(** [str(x)] for [x] that is [None] or a [str], as an f-string renders it. *)
Definition str_opt (o : option string) : string :=
  match o with Some s => s | None => "None" end.

(** ** The three stage functions (app.py, lines 44-87) *)

Section Pipeline.

Variable w : world.

(** Lines 44-61.  [if not video_id] holds for [None] and for the empty
    string. *)
Definition get_existing_transcript (video_url : string) : M (option string * string) :=
  log (Stage_captions video_url) ;;
  try_except
    (match extract_video_id video_url with
     | Some video_id =>
         if negb (Py.truthy video_id) then mret (None, "Invalid URL")
         else
           log (Call_fetch video_id) ;;
           raw_data ← lift_outcome (ytt_fetch w video_id) ;
           let formatted_text := Py.join Py.nl (map text raw_data) in
           mret (Some formatted_text, "captions")
     | None => mret (None, "Invalid URL")
     end)
    (fun e => mret (None, "No captions: " +:+ e)).

(** [with yt_dlp.YoutubeDL(ydl_opts) as ydl: ydl.download([video_url])] *)
Definition run_ydl (video_url outtmpl : string) : M unit :=
  fun st =>
    match ydl_download w video_url outtmpl (fs st) with
    | (fs', r) => (r, State fs' (trace st) (ui st))
    end.

(** Lines 63-78. *)
Definition download_audio (video_url output_path : string) : M bool :=
  log (Stage_download video_url output_path) ;;
  try_except
    (log (Call_ydl video_url output_path) ;;
     run_ydl video_url output_path ;;
     mret true)
    (fun e => show (St_error ("Audio download failed: " +:+ e)) ;; mret false).

(** Lines 80-87. *)
Definition transcribe_with_whisper (audio_path model_size : string)
    : M (option string * string) :=
  log (Stage_transcribe audio_path model_size) ;;
  try_except
    (log (Call_whisper model_size audio_path) ;;
     result_text ← lift_outcome (whisper_text w model_size audio_path) ;
     mret (Some result_text, "whisper"))
    (fun e => mret (None, "Transcription failed: " +:+ e)).

(** ** The button handler (app.py, lines 113-204) *)

(** Lines 127-150: the captions result is shown.  ([st.tabs] and
    [st.columns] only lay the widgets out.) *)
Definition present_captions (video_url transcript : string) : M unit :=
  show (St_status "✅ Found existing captions!") ;;
  show (St_progress 100) ;;
  show (St_success "🎉 Transcript generated successfully using existing captions!") ;;
  show (St_text_area "Transcript Content" transcript) ;;
  show (St_download_button "📥 Download as TXT" transcript
          ("transcript_" +:+ str_opt (extract_video_id video_url) +:+ ".txt")) ;;
  show (St_info "💡 You can also copy the text directly from the transcript area above").

(** Lines 171-190: the Whisper result is shown. *)
Definition present_whisper (video_url whisper_model transcript : string) : M unit :=
  show (St_status "✅ AI transcription completed!") ;;
  show (St_progress 100) ;;
  show (St_success "🎉 Transcript generated successfully using AI speech recognition!") ;;
  show (St_text_area "AI-Generated Transcript" transcript) ;;
  show (St_download_button "📥 Download as TXT" transcript
          ("ai_transcript_" +:+ str_opt (extract_video_id video_url) +:+ ".txt")) ;;
  show (St_info ("📊 Generated using Whisper '" +:+ whisper_model +:+ "' model")).

(** Lines 153-196: the [else] branch, audio download and Whisper. *)
Definition whisper_path (video_url whisper_model : string) : M unit :=
  show (St_status "🎵 No captions found. Downloading audio...") ;;
  show (St_progress 40) ;;
  with_temporary_directory w (fun temp_dir =>
    let audio_path := path_join temp_dir "audio.%(ext)s" in
    ok ← download_audio video_url audio_path ;
    if ok : bool then
      show (St_status "🤖 Transcribing with Whisper AI...") ;;
      show (St_progress 70) ;;
      names ← listdir temp_dir ;
      let audio_files := filter (fun f => Py.startswith "audio" f = true) names in
      match audio_files with
      | first :: _ =>
          let actual_audio_path := path_join temp_dir first in
          r ← transcribe_with_whisper actual_audio_path whisper_model ;
          if Py.truthy_opt (fst r)
          then present_whisper video_url whisper_model (str_opt (fst r))
          else show (St_error "❌ Failed to transcribe audio")
      | [] => show (St_error "❌ Audio file not found after download")
      end
    else show (St_error "❌ Failed to download video audio")).

(** Line 126: [transcript and method == "captions"]. *)
Definition captions_guard (r : option string * string) : bool :=
  Py.truthy_opt (fst r) && String.eqb (snd r) "captions".

(** Lines 113-204: one click on "Generate Transcript". *)
Definition generate_transcript (video_url whisper_model : string) : M unit :=
  if Py.truthy video_url then
    show (St_progress 0) ;;
    try_finally
      (try_except
         (show (St_status "🔍 Checking for existing captions...") ;;
          show (St_progress 20) ;;
          r ← get_existing_transcript video_url ;
          if captions_guard r
          then present_captions video_url (str_opt (fst r))
          else whisper_path video_url whisper_model)
         (fun e => show (St_error ("❌ An error occurred: " +:+ e))))
      (show St_empty_progress ;; show St_empty_status)
  else show (St_error "⚠️ Please enter a YouTube URL").

End Pipeline.

(** Lines 240-245: what the "Debug Information" expander writes, one string
    per [st.write]. *)
Definition debug_information (video_url : string) : list string :=
  if Py.truthy video_url then
    let video_id := extract_video_id video_url in
    ["**Input URL:** " +:+ video_url;
     "**Extracted Video ID:** " +:+ str_opt video_id;
     "**Video ID Length:** " +:+
       (if Py.truthy_opt video_id
        then pretty (String.length (str_opt video_id))
        else "None")]
  else [].

Definition init : state := State ∅ [] [].

(** * Vocabulary of the statements *)

(** ** The resolver *)

(** The prefix of [s] before the first character that satisfies [f]
    (all of [s] when there is none). *)
Fixpoint cut_before (f : ascii -> bool) (s : string) : string :=
  match s with
  | EmptyString => EmptyString
  | String a t => if f a then EmptyString else String a (cut_before f t)
  end.

Definition is_separator (a : ascii) : bool := Ascii.eqb a "&" || Ascii.eqb a "?".

(** [n] characters of the class [p] at the start of [s]. *)
Definition class_run (p : ascii -> bool) (n : nat) (s : string) : bool :=
  (n <=? String.length s)%nat && Py.all p (Py.take n s).

Definition captures_id (p : Re.pattern) : Prop := Re.group1 p = id_group.

(** The 11 characters of the class at the start of [t], when [t] starts
    with that many. *)
Definition take_id (t : string) : option string :=
  if class_run id_char 11 t then Some (Py.take 11 t) else None.

(** ** What one run depends on, read off the collaborators *)

Section Oracle.

Variables (w : world) (video_url whisper_model : string).

(** What [get_existing_transcript] returns and which calls it makes
    (lemma [get_existing_transcript_run]). *)
Definition captions_result : option string * string :=
  match extract_video_id video_url with
  | Some video_id =>
      if Py.truthy video_id then
        match ytt_fetch w video_id with
        | Ok raw_data => (Some (Py.join Py.nl (map text raw_data)), "captions")
        | Raise e => (None, "No captions: " +:+ e)
        end
      else (None, "Invalid URL")
  | None => (None, "Invalid URL")
  end.

Definition captions_events : list event :=
  Stage_captions video_url ::
  match extract_video_id video_url with
  | Some video_id => if Py.truthy video_id then [Call_fetch video_id] else []
  | None => []
  end.

(** The captions check succeeds: the guard of line 126 holds. *)
Definition captions_found : bool := captions_guard captions_result.

(** The output template handed to the downloader. *)
Definition audio_template : string := path_join (tmp_name w) "audio.%(ext)s".

(** The downloader's effect and result in the fresh temporary directory. *)
Definition downloaded (fs0 : filesystem) : filesystem * outcome unit :=
  ydl_download w video_url audio_template (<[tmp_name w := []]> fs0).

Definition download_ok (fs0 : filesystem) : bool :=
  match snd (downloaded fs0) with Ok _ => true | Raise _ => false end.

(** The names in the temporary directory that start with "audio", once the
    downloader is done ([None]: the directory is gone). *)
Definition audio_files (fs0 : filesystem) : option (list string) :=
  filter (fun f => Py.startswith "audio" f = true) <$>
    (fst (downloaded fs0) !! tmp_name w).

(** The file handed to Whisper, when the run gets that far. *)
Definition actual_audio_path (fs0 : filesystem) : option string :=
  if download_ok fs0 then
    match audio_files fs0 with
    | Some (first :: _) => Some (path_join (tmp_name w) first)
    | _ => None
    end
  else None.

Definition download_events : list event :=
  [Stage_download video_url audio_template; Call_ydl video_url audio_template].

Definition transcribe_events (fs0 : filesystem) : list event :=
  match actual_audio_path fs0 with
  | Some p => [Stage_transcribe p whisper_model; Call_whisper whisper_model p]
  | None => []
  end.

End Oracle.

(** The captions check of a run succeeds, in the words of the specification
    and without reference to the handler: an identifier is extracted, the
    captions collaborator returns for it, and the text it returns, joined,
    is not empty.  The check fails otherwise: no identifier, the
    collaborator raised, or it returned nothing. *)
Definition captions_available (w : world) (video_url : string) : bool :=
  match extract_video_id video_url with
  | Some video_id =>
      match ytt_fetch w video_id with
      | Ok raw_data => negb (String.eqb (Py.join Py.nl (map text raw_data)) "")
      | Raise _ => false
      end
  | None => false
  end.

(** ** What one run is expected to show, call and leave behind *)

(** The messages that report an outcome: [st.success] and [st.error]. *)
Definition is_report (u : shown) : bool :=
  match u with St_success _ | St_error _ => true | _ => false end.

Fixpoint reports (l : list shown) : list shown :=
  match l with
  | [] => []
  | u :: l' => if is_report u then u :: reports l' else reports l'
  end.

Section Expected.

Variables (w : world) (video_url whisper_model : string) (fs0 : filesystem).

(** The outcome messages of the [else] branch, case by case. *)
Definition whisper_reports : list shown :=
  match snd (downloaded w video_url fs0) with
  | Raise e =>
      [St_error ("Audio download failed: " +:+ e);
       St_error "❌ Failed to download video audio"]
  | Ok _ =>
      match audio_files w video_url fs0 with
      | None =>
          [St_error ("❌ An error occurred: " +:+
             ("[Errno 2] No such file or directory: '" +:+ tmp_name w +:+ "'"))]
      | Some [] => [St_error "❌ Audio file not found after download"]
      | Some (first :: _) =>
          match whisper_text w whisper_model (path_join (tmp_name w) first) with
          | Ok t =>
              if Py.truthy t
              then [St_success "🎉 Transcript generated successfully using AI speech recognition!"]
              else [St_error "❌ Failed to transcribe audio"]
          | Raise _ => [St_error "❌ Failed to transcribe audio"]
          end
      end
  end.

Definition expected_reports : list shown :=
  if captions_found w video_url
  then [St_success "🎉 Transcript generated successfully using existing captions!"]
  else whisper_reports.

Definition expected_events : list event :=
  captions_events video_url ++
  (if captions_found w video_url then []
   else download_events w video_url ++ transcribe_events w video_url whisper_model fs0).

Definition expected_fs : filesystem :=
  if captions_found w video_url then fs0
  else delete (tmp_name w) (fst (downloaded w video_url fs0)).

End Expected.

(** ** Counting calls *)

(** Collaborator calls, as opposed to calls of the stage functions. *)
Definition is_call (e : event) : bool :=
  match e with Call_fetch _ | Call_ydl _ _ | Call_whisper _ _ => true | _ => false end.

Definition is_download_stage (e : event) : bool :=
  match e with Stage_download _ _ => true | _ => false end.

Definition is_transcribe_stage (e : event) : bool :=
  match e with Stage_transcribe _ _ => true | _ => false end.

Fixpoint count (f : event -> bool) (l : list event) : nat :=
  match l with
  | [] => 0
  | e :: l' => if f e then S (count f l') else count f l'
  end.

(** ** Concrete collaborators *)

Definition short_url : string := "https://youtu.be/LadcLQIKbNY".

(** A downloader that leaves the files [names] in the temporary directory. *)
Definition ydl_writes (tmp : string) (names : list string)
    (_ _ : string) (fs0 : filesystem) : filesystem * outcome unit :=
  (<[tmp := names]> fs0, Ok tt).

Definition world_with (fetch : string -> outcome (list entry))
    (names : list string) : world :=
  World fetch (ydl_writes "/tmp/tmpk3x9" names)
    (fun _ _ => Ok "hello world") "/tmp/tmpk3x9".

(** Captions are disabled for the video. *)
Definition w_disabled : world :=
  world_with (fun _ => Raise "Subtitles are disabled for this video") ["audio.webm"].

(** Two caption snippets. *)
Definition w_captions : world :=
  world_with (fun _ => Ok [Entry "Hello" 0 1500; Entry "world" 1500 2000]) ["audio.webm"].

(** One caption snippet with empty text. *)
Definition w_blank : world :=
  world_with (fun _ => Ok [Entry "" 0 1500]) ["audio.webm"].

(** A transcript without snippets. *)
Definition w_empty : world := world_with (fun _ => Ok []) ["audio.webm"].

(** The downloader reports success but the temporary directory is gone. *)
Definition w_dir_gone : world :=
  World (fun _ => Raise "Subtitles are disabled for this video")
    (fun _ _ fs0 => (delete "/tmp/tmpk3x9" fs0, Ok tt))
    (fun _ _ => Ok "hello world") "/tmp/tmpk3x9".

(** The downloader reports success but leaves no file named audio.* *)
Definition w_no_audio : world :=
  world_with (fun _ => Raise "Subtitles are disabled for this video") ["video.webm"].

(** * Properties of the URL resolver *)

(** ** Strings *)

Lemma split_nonempty sep s : Py.split sep s <> [].
Proof. destruct s as [|a t]; simpl; [|destruct (Ascii.eqb a sep), (Py.split sep t)]; discriminate. Qed.

Lemma item0_split sep s :
  Py.item0 (Py.split sep s) = cut_before (fun a => Ascii.eqb a sep) s.
Proof.
  induction s as [|a t IH]; simpl; [reflexivity|].
  destruct (Ascii.eqb a sep); [reflexivity|].
  destruct (Py.split sep t) as [|p ps] eqn:E.
  - now apply split_nonempty in E.
  - simpl in *. now rewrite IH.
Qed.

Lemma cut_before_twice f g s :
  cut_before g (cut_before f s) = cut_before (fun a => f a || g a) s.
Proof.
  induction s as [|a t IH]; simpl; [reflexivity|].
  destruct (f a); simpl; [reflexivity|].
  destruct (g a); [reflexivity|]. now rewrite IH.
Qed.

Lemma cut_before_app f pre a rest :
  Py.all (fun c => negb (f c)) pre = true -> f a = true ->
  cut_before f (pre +:+ String a rest) = pre.
Proof.
  intros Hpre Ha. induction pre as [|c t IH]; simpl in *.
  - now rewrite Ha.
  - apply andb_prop in Hpre as [Hc Ht]. apply negb_true_iff in Hc.
    now rewrite Hc, IH.
Qed.

Lemma contains_app c pre rest : Py.contains c (pre +:+ String c rest) = true.
Proof.
  induction pre as [|a t IH]; simpl.
  - now rewrite Ascii.eqb_refl.
  - now destruct (Ascii.eqb a c).
Qed.

Lemma length_drop n s : String.length (Py.drop n s) = String.length s - n.
Proof. revert s. induction n as [|n IH]; intros [|a t]; simpl; auto; lia. Qed.

Lemma length_take n s : n <= String.length s -> String.length (Py.take n s) = n.
Proof.
  unfold Py.take. revert s.
  induction n as [|n IH]; intros [|a t] H; simpl in *; try lia; try reflexivity.
  f_equal. apply IH. lia.
Qed.

(** ** The matcher *)

(** Whatever [exec] returns was returned by its continuation. *)
Lemma exec_some_cont {A} r : forall s (k : string -> option A) x,
  Re.exec r s k = Some x -> exists s', k s' = Some x.
Proof.
  induction r as [|c|p| |r1 IH1 r2 IH2|r1 IH1 r2 IH2|n r IH]; intros s k x H; simpl in H.
  - eauto.
  - destruct s as [|a t]; [discriminate|]. destruct (Ascii.eqb a c); [eauto|discriminate].
  - destruct s as [|a t]; [discriminate|]. destruct (p a); [eauto|discriminate].
  - induction s as [|a t IHs]; [eauto|].
    destruct (Re.is_newline a); [eauto|].
    match type of H with match ?e with _ => _ end = _ => destruct e eqn:E end; [|eauto].
    injection H as ->. auto.
  - apply IH1 in H as [s1 H1]. eauto.
  - destruct (Re.exec r1 s k) eqn:E.
    + injection H as ->. eauto.
    + eauto.
  - revert s H. induction n as [|n IHn]; intros s H; [eauto|].
    apply IH in H as [s1 H1]. eauto.
Qed.

Lemma exec_rep_cls {A} p n : forall s (k : string -> option A),
  Re.exec (Re.Rep n (Re.Cls p)) s k =
  if class_run p n s then k (Py.drop n s) else None.
Proof.
  induction n as [|n IH]; intros s k.
  - destruct s; reflexivity.
  - destruct s as [|a t]; [reflexivity|].
    change (Re.exec (Re.Rep (S n) (Re.Cls p)) (String a t) k)
      with (if p a then Re.exec (Re.Rep n (Re.Cls p)) t k else None).
    rewrite IH. unfold class_run, Py.take. simpl.
    destruct (p a); [reflexivity|]. now rewrite andb_false_r.
Qed.

Lemma take_drop_length n s :
  n <= String.length s -> String.length s - String.length (Py.drop n s) = n.
Proof. intros H. rewrite length_drop. lia. Qed.

(** A pattern whose group is [p{n}] captures [n] characters of [p]. *)
Lemma match_here_group b p n a s g :
  Re.match_here (Re.Pattern b (Re.Rep n (Re.Cls p)) a) s = Some g ->
  String.length g = n /\ Py.all p g = true.
Proof.
  unfold Re.match_here. simpl Re.before. simpl Re.group1. simpl Re.after.
  intros H. apply exec_some_cont in H as [s1 H].
  rewrite exec_rep_cls in H. destruct (class_run p n s1) eqn:Hrun; [|discriminate].
  apply exec_some_cont in H as [_ H]. injection H as <-.
  apply andb_prop in Hrun as [Hlen Hall]. apply Nat.leb_le in Hlen.
  rewrite take_drop_length by assumption. split; [now apply length_take|assumption].
Qed.

Lemma search_group b p n a s g :
  Re.search (Re.Pattern b (Re.Rep n (Re.Cls p)) a) s = Some g ->
  String.length g = n /\ Py.all p g = true.
Proof.
  induction s as [|c t IH]; simpl; intros H.
  - destruct (Re.match_here _ _) eqn:E; [|discriminate].
    injection H as ->. eapply match_here_group; eauto.
  - destruct (Re.match_here _ _) eqn:E.
    + injection H as ->. eapply match_here_group; eauto.
    + auto.
Qed.

Lemma patterns_capture_id : Forall captures_id patterns.
Proof. repeat constructor. Qed.

Lemma first_match_id ps url v :
  Forall captures_id ps -> first_match ps url = Some v ->
  String.length v = 11 /\ Py.all id_char v = true.
Proof.
  induction 1 as [|p ps Hp Hps IH]; simpl; [discriminate|].
  destruct p as [b g a]. unfold captures_id in Hp. simpl in Hp. subst g.
  destruct (Re.search _ url) as [video_id|] eqn:E; [|exact IH].
  apply search_group in E as [Hlen Hall].
  rewrite Hlen. simpl. now intros [= <-].
Qed.

(** ** Line 24: what the preprocessing keeps *)

Lemma strip_params_cut url :
  strip_params url =
  if Py.contains "?" url then cut_before is_separator url else url.
Proof.
  unfold strip_params. destruct (Py.contains "?" url); [|reflexivity].
  now rewrite !item0_split, cut_before_twice.
Qed.

(** Nothing that follows the first '?' reaches the patterns. *)
Lemma query_never_seen pre rest :
  Py.all (fun c => negb (is_separator c)) pre = true ->
  extract_video_id (pre +:+ String "?" rest) = first_match patterns pre.
Proof.
  intros Hpre. unfold extract_video_id.
  rewrite strip_params_cut, contains_app, cut_before_app; auto.
Qed.

(** Without a '?' the URL reaches the patterns as it is. *)
Lemma no_query_no_strip url :
  Py.contains "?" url = false -> extract_video_id url = first_match patterns url.
Proof. intros H. unfold extract_video_id, strip_params. now rewrite H. Qed.

Example extract_short :
  extract_video_id "https://youtu.be/LadcLQIKbNY?si=abc" = Some "LadcLQIKbNY".
Proof. vm_compute. reflexivity. Qed.

Example extract_embed :
  extract_video_id "https://www.youtube.com/embed/dQw4w9WgXcQ" = Some "dQw4w9WgXcQ".
Proof. vm_compute. reflexivity. Qed.

Example extract_not_a_url : extract_video_id "not a url" = None.
Proof. vm_compute. reflexivity. Qed.

Example strip_keeps_ampersand :
  strip_params "https://youtu.be/LadcLQIKbNY&t=10" = "https://youtu.be/LadcLQIKbNY&t=10".
Proof. vm_compute. reflexivity. Qed.

Example strip_cuts_at_ampersand : strip_params "a&b?c" = "a".
Proof. vm_compute. reflexivity. Qed.

Example strip_cuts_at_question : strip_params "a?b&c" = "a".
Proof. vm_compute. reflexivity. Qed.

(** C1 (failing input).  A URL of the first supported shape,
    [https://www.youtube.com/watch?v=dQw4w9WgXcQ], does not yield its
    identifier: line 24 cuts the URL at the '?', so the ["v="] the first
    pattern looks for is gone before any pattern runs, and the result is
    [None].  The same holds whatever follows [watch?]. *)
Theorem extract_video_id_watch_url :
  extract_video_id "https://www.youtube.com/watch?v=dQw4w9WgXcQ" = None /\
  forall query, extract_video_id ("https://www.youtube.com/watch?" +:+ query) = None.
Proof.
  split; [vm_compute; reflexivity|]. intros query.
  change ("https://www.youtube.com/watch?" +:+ query)
    with ("https://www.youtube.com/watch" +:+ String "?" query).
  rewrite query_never_seen by (vm_compute; reflexivity).
  vm_compute. reflexivity.
Qed.

Lemma extracted_id_shape url v :
  extract_video_id url = Some v ->
  String.length v = 11 /\ Py.all id_char v = true.
Proof. intros E. eapply first_match_id; [apply patterns_capture_id|exact E]. Qed.

(** C2.  Whatever the input, [extract_video_id] returns [None] or a string
    of exactly 11 characters, each of the class [[0-9A-Za-z_-]]. *)
Theorem extract_video_id_shape (url : string) :
  extract_video_id url = None \/
  exists v, extract_video_id url = Some v /\
            String.length v = 11 /\ Py.all id_char v = true.
Proof.
  destruct (extract_video_id url) as [v|] eqn:E; [right|now left].
  exists v. split; [reflexivity|]. now apply (extracted_id_shape url).
Qed.

(** C10.  The preprocessing of line 24 leaves a URL without '?' untouched,
    '&' suffix included, and cuts a URL with a '?' just before its first
    '&' or '?', whichever comes first. *)
Theorem strip_params_asymmetric (url : string) :
  strip_params url =
  if Py.contains "?" url then cut_before is_separator url else url.
Proof.
  unfold strip_params. destruct (Py.contains "?" url) eqn:Hq; [|reflexivity].
  rewrite (item0_split "&" url), (item0_split "?" (cut_before _ url)).
  rewrite cut_before_twice. reflexivity.
Qed.

(** * Properties of the pipeline *)

(** ** Running the stage functions *)

Ltac unfold_monad :=
  unfold mbind, M_bind, mret, M_ret, try_except, try_finally, log, show,
    lift_outcome; cbn [fs trace ui fst snd].

Lemma get_existing_transcript_run w url st :
  get_existing_transcript w url st =
  (Ok (captions_result w url),
   State (fs st) (trace st ++ captions_events url) (ui st)).
Proof.
  unfold get_existing_transcript, captions_result, captions_events. unfold_monad.
  destruct (extract_video_id url) as [vid|].
  - destruct (Py.truthy vid); cbn [negb]; [|reflexivity].
    destruct (ytt_fetch w vid); cbn [fs trace ui]; now rewrite <- app_assoc.
  - reflexivity.
Qed.

Lemma download_audio_run w url out st :
  download_audio w url out st =
  let d := ydl_download w url out (fs st) in
  match snd d with
  | Ok _ =>
      (Ok true, State (fst d) (trace st ++ [Stage_download url out; Call_ydl url out]) (ui st))
  | Raise e =>
      (Ok false, State (fst d) (trace st ++ [Stage_download url out; Call_ydl url out])
                   (ui st ++ [St_error ("Audio download failed: " +:+ e)]))
  end.
Proof.
  unfold download_audio, run_ydl. unfold_monad.
  destruct (ydl_download w url out (fs st)) as [fs' [[]|e]]; cbn [fs trace ui fst snd];
    now rewrite <- app_assoc.
Qed.

Lemma transcribe_with_whisper_run w path model st :
  transcribe_with_whisper w path model st =
  (Ok match whisper_text w model path with
      | Ok t => (Some t, "whisper")
      | Raise e => (None, "Transcription failed: " +:+ e)
      end,
   State (fs st) (trace st ++ [Stage_transcribe path model; Call_whisper model path]) (ui st)).
Proof.
  unfold transcribe_with_whisper. unfold_monad.
  destruct (whisper_text w model path); cbn [fs trace ui]; now rewrite <- app_assoc.
Qed.

(** ** Running the button handler *)

Lemma reports_app l1 l2 : reports (l1 ++ l2) = reports l1 ++ reports l2.
Proof.
  induction l1 as [|u l1 IH]; simpl; [reflexivity|].
  destruct (is_report u); simpl; now rewrite IH.
Qed.

Lemma whisper_path_run w url model st :
  exists r new_ui,
    whisper_path w url model st =
    (r, State (delete (tmp_name w) (fst (downloaded w url (fs st))))
          (trace st ++ download_events w url ++ transcribe_events w url model (fs st))
          (ui st ++ new_ui)) /\
    reports (new_ui ++
             match r with
             | Ok _ => []
             | Raise e => [St_error ("❌ An error occurred: " +:+ e)]
             end) = whisper_reports w url model (fs st).
Proof.
  unfold whisper_path, with_temporary_directory.
  unfold mbind at 1 2, M_bind at 1 2, show at 1 2. cbn [fs trace ui].
  unfold mbind at 1, M_bind at 1. rewrite download_audio_run. cbn [fs trace ui].
  unfold whisper_reports, transcribe_events, actual_audio_path, download_ok, audio_files,
    download_events, downloaded. fold (audio_template w).
  destruct (ydl_download w url (audio_template w) (<[tmp_name w:=[]]> (fs st)))
    as [fs' [[]|e]]; cbn [fst snd].
  - unfold mbind at 1 2 3, M_bind at 1 2 3, show at 1 2, listdir. cbn [fs trace ui].
    destruct (fs' !! tmp_name w) as [names|]; cbn [fmap option_fmap option_map].
    + destruct (filter _ names) as [|first rest].
      * unfold show. cbn [fs trace ui]. eexists _, _. split.
        { rewrite <- !app_assoc, app_nil_r. reflexivity. }
        reflexivity.
      * unfold mbind at 1, M_bind at 1. rewrite transcribe_with_whisper_run.
        cbn [fs trace ui].
        destruct (whisper_text w model (path_join (tmp_name w) first)) as [t|e];
          cbn [fst Py.truthy_opt].
        -- destruct (Py.truthy t).
           ++ unfold present_whisper. unfold_monad. eexists _, _. split.
              { rewrite <- !app_assoc. reflexivity. }
              reflexivity.
           ++ unfold show. cbn [fs trace ui]. eexists _, _. split.
              { rewrite <- !app_assoc. reflexivity. }
              reflexivity.
        -- unfold show. cbn [fs trace ui]. eexists _, _. split.
           { rewrite <- !app_assoc. reflexivity. }
           reflexivity.
    + eexists _, _. split.
      { rewrite <- !app_assoc, app_nil_r. reflexivity. }
      reflexivity.
  - unfold show. cbn [fs trace ui]. eexists _, _. split.
    { rewrite <- !app_assoc, app_nil_r. reflexivity. }
    reflexivity.
Qed.

Lemma generate_transcript_run w url model st :
  Py.truthy url = true ->
  exists new_ui,
    generate_transcript w url model st =
    (Ok tt, State (expected_fs w url (fs st))
              (trace st ++ expected_events w url model (fs st))
              (ui st ++ new_ui)) /\
    reports new_ui = expected_reports w url model (fs st).
Proof.
  intros Hurl. unfold generate_transcript. rewrite Hurl.
  unfold expected_fs, expected_events, expected_reports, captions_found.
  unfold mbind at 1, M_bind at 1, show at 1. cbn [fs trace ui].
  unfold try_finally, try_except.
  unfold mbind at 1 2 3, M_bind at 1 2 3, show at 1 2. cbn [fs trace ui].
  rewrite get_existing_transcript_run. cbn [fs trace ui].
  destruct (captions_guard (captions_result w url)).
  - unfold present_captions. unfold_monad. eexists. split.
    + rewrite <- !app_assoc, app_nil_r. reflexivity.
    + reflexivity.
  - match goal with |- context [whisper_path w url model ?s] =>
      destruct (whisper_path_run w url model s) as (r & new & -> & Hrep)
    end.
    cbn [fs trace ui] in *.
    destruct r as [[]|e]; unfold_monad.
    + eexists. split.
      * rewrite <- !app_assoc. reflexivity.
      * rewrite app_nil_r in Hrep. cbn [app reports is_report].
        rewrite reports_app. cbn [reports is_report]. now rewrite app_nil_r.
    + eexists. split.
      * rewrite <- !app_assoc. reflexivity.
      * cbn [app reports is_report]. rewrite reports_app in *.
        cbn [reports is_report] in *. exact Hrep.
Qed.

(** ** The captions check, case by case *)

Lemma extracted_id_truthy url vid :
  extract_video_id url = Some vid -> Py.truthy vid = true.
Proof.
  intros H. destruct (extracted_id_shape url vid H) as [Hlen _].
  destruct vid; [discriminate|reflexivity].
Qed.

Lemma extracted_url_truthy url vid :
  extract_video_id url = Some vid -> Py.truthy url = true.
Proof. destruct url; [discriminate|reflexivity]. Qed.

Lemma captions_events_valid url vid :
  extract_video_id url = Some vid ->
  captions_events url = [Stage_captions url; Call_fetch vid].
Proof.
  intros H. unfold captions_events. now rewrite H, (extracted_id_truthy url vid H).
Qed.

Lemma captions_events_invalid url :
  extract_video_id url = None -> captions_events url = [Stage_captions url].
Proof. intros H. unfold captions_events. now rewrite H. Qed.

Lemma captions_result_fetched w url vid :
  extract_video_id url = Some vid ->
  captions_result w url =
  match ytt_fetch w vid with
  | Ok raw_data => (Some (Py.join Py.nl (map text raw_data)), "captions")
  | Raise e => (None, "No captions: " +:+ e)
  end.
Proof.
  intros H. unfold captions_result. now rewrite H, (extracted_id_truthy url vid H).
Qed.

Lemma captions_result_invalid w url :
  extract_video_id url = None -> captions_result w url = (None, "Invalid URL").
Proof. intros H. unfold captions_result. now rewrite H. Qed.

(** The guard of line 126, applied to what [get_existing_transcript]
    returns, holds exactly when captions are available. *)
Lemma guard_decides_availability w url :
  captions_found w url = captions_available w url.
Proof.
  unfold captions_found, captions_available, captions_result, captions_guard.
  destruct (extract_video_id url) as [vid|] eqn:Hid; [|reflexivity].
  rewrite (extracted_id_truthy url vid Hid).
  destruct (ytt_fetch w vid) as [raw|e]; [|reflexivity].
  cbn [fst snd Py.truthy_opt]. now destruct (Py.join Py.nl (map text raw)).
Qed.

Lemma not_found_events w url model fs0 :
  captions_found w url = false ->
  expected_events w url model fs0 =
  captions_events url ++ download_events w url ++ transcribe_events w url model fs0.
Proof. intros H. unfold expected_events. now rewrite H. Qed.

Lemma count_app f l1 l2 : count f (l1 ++ l2) = count f l1 + count f l2.
Proof. induction l1 as [|e l1 IH]; simpl; [reflexivity|]. destruct (f e); simpl; lia. Qed.

Lemma count_captions_events f url :
  (forall u, f (Stage_captions u) = false) -> (forall v, f (Call_fetch v) = false) ->
  count f (captions_events url) = 0.
Proof.
  intros H1 H2. unfold captions_events.
  destruct (extract_video_id url) as [v|]; [destruct (Py.truthy v)|]; simpl;
    now rewrite ?H1, ?H2.
Qed.

(** * The claims about the captions fetcher *)

(** C3, as the code has it.  When the identifier is extracted and the
    captions collaborator returns at least one snippet,
    [get_existing_transcript] returns the snippets' texts joined by newlines,
    in order, with method "captions"; and when that text is not empty the run
    makes the captions calls only: no download, no transcription. *)
Theorem captions_success w url model vid entries st :
  extract_video_id url = Some vid ->
  ytt_fetch w vid = Ok entries ->
  entries <> [] ->
  let blob := Py.join Py.nl (map text entries) in
  fst (get_existing_transcript w url st) = Ok (Some blob, "captions") /\
  (blob <> "" ->
   trace (snd (generate_transcript w url model st)) =
   trace st ++ [Stage_captions url; Call_fetch vid]).
Proof.
  intros Hid Hfetch _ blob. split.
  - rewrite get_existing_transcript_run. cbn [fst].
    now rewrite (captions_result_fetched w url vid Hid), Hfetch.
  - intros Hblob.
    destruct (generate_transcript_run w url model st (extracted_url_truthy url vid Hid))
      as (new & -> & _).
    cbn [snd trace]. f_equal. unfold expected_events, captions_found.
    rewrite (captions_result_fetched w url vid Hid), Hfetch.
    fold blob. unfold captions_guard. cbn [fst snd Py.truthy_opt].
    destruct blob; [congruence|]. cbn [Py.truthy String.eqb andb].
    rewrite app_nil_r. now apply captions_events_valid.
Qed.

Lemma captions_success_witness :
  fst (get_existing_transcript w_captions short_url init) =
    Ok (Some (Py.join Py.nl ["Hello"; "world"]), "captions") /\
  trace (snd (generate_transcript w_captions short_url "base" init)) =
    [Stage_captions short_url; Call_fetch "LadcLQIKbNY"].
Proof.
  destruct (captions_success w_captions short_url "base" "LadcLQIKbNY"
              [Entry "Hello" 0 1500; Entry "world" 1500 2000] init) as [H1 H2].
  - vm_compute. reflexivity.
  - reflexivity.
  - discriminate.
  - split; [exact H1|]. apply H2. vm_compute. discriminate.
Defined.

(** C3, as stated, fails: one snippet whose text is empty makes the joined
    text empty, the guard of line 126 rejects it, and the run goes on to
    download audio. *)
Lemma blank_snippet_reaches_download :
  ~ (forall w url model vid entries,
       extract_video_id url = Some vid ->
       ytt_fetch w vid = Ok entries ->
       entries <> [] ->
       fst (get_existing_transcript w url init) =
         Ok (Some (Py.join Py.nl (map text entries)), "captions") /\
       count is_download_stage (trace (snd (generate_transcript w url model init))) = 0).
Proof.
  intros H.
  destruct (H w_blank short_url "base" "LadcLQIKbNY" [Entry "" 0 1500]) as [_ H2].
  - vm_compute. reflexivity.
  - reflexivity.
  - discriminate.
  - vm_compute in H2. discriminate.
Qed.

(** C4, as the code has it.  When no identifier can be extracted,
    [get_existing_transcript] returns the reason "Invalid URL" and makes no
    call to the captions collaborator; the run then takes the [else] branch:
    it calls the downloader once, with the URL as typed, and never calls the
    captions collaborator. *)
Theorem invalid_url_falls_through w url model st :
  extract_video_id url = None ->
  Py.truthy url = true ->
  get_existing_transcript w url st =
    (Ok (None, "Invalid URL"),
     State (fs st) (trace st ++ [Stage_captions url]) (ui st)) /\
  trace (snd (generate_transcript w url model st)) =
    trace st ++ [Stage_captions url] ++ download_events w url ++
    transcribe_events w url model (fs st).
Proof.
  intros Hid Hurl. split.
  - rewrite get_existing_transcript_run.
    now rewrite captions_result_invalid, captions_events_invalid.
  - destruct (generate_transcript_run w url model st Hurl) as (new & -> & _).
    cbn [snd trace]. f_equal. rewrite not_found_events.
    + now rewrite captions_events_invalid.
    + unfold captions_found. now rewrite captions_result_invalid.
Qed.

Lemma invalid_url_falls_through_witness :
  get_existing_transcript w_disabled "not a url" init =
    (Ok (None, "Invalid URL"), State ∅ [Stage_captions "not a url"] []) /\
  trace (snd (generate_transcript w_disabled "not a url" "base" init)) =
    [Stage_captions "not a url"] ++ download_events w_disabled "not a url" ++
    transcribe_events w_disabled "not a url" "base" ∅.
Proof.
  apply (invalid_url_falls_through w_disabled "not a url" "base" init).
  - vm_compute. reflexivity.
  - reflexivity.
Defined.

(** C4, as stated, fails: on "not a url" the run does contact a
    collaborator, the downloader. *)
Lemma not_a_url_reaches_downloader :
  ~ (forall w url model,
       extract_video_id url = None ->
       fst (get_existing_transcript w url init) = Ok (None, "Invalid URL") /\
       count is_call (trace (snd (generate_transcript w url model init))) = 0).
Proof.
  intros H. destruct (H w_disabled "not a url" "base") as [_ H2].
  - vm_compute. reflexivity.
  - vm_compute in H2. discriminate.
Qed.

(** C5.  When the captions collaborator raises, [get_existing_transcript]
    catches the exception and returns, with no transcript and the reason
    "No captions: " followed by the exception's message. *)
Theorem captions_exception_caught w url vid msg st :
  extract_video_id url = Some vid ->
  ytt_fetch w vid = Raise msg ->
  get_existing_transcript w url st =
    (Ok (None, "No captions: " +:+ msg),
     State (fs st) (trace st ++ [Stage_captions url; Call_fetch vid]) (ui st)).
Proof.
  intros Hid Hfetch. rewrite get_existing_transcript_run.
  now rewrite (captions_result_fetched w url vid Hid), Hfetch,
    (captions_events_valid url vid Hid).
Qed.

Lemma captions_exception_caught_witness :
  get_existing_transcript w_disabled short_url init =
    (Ok (None, "No captions: Subtitles are disabled for this video"),
     State ∅ [Stage_captions short_url; Call_fetch "LadcLQIKbNY"] []).
Proof.
  apply (captions_exception_caught w_disabled short_url "LadcLQIKbNY"
           "Subtitles are disabled for this video" init).
  - vm_compute. reflexivity.
  - reflexivity.
Defined.

(** C9.  When the collaborator returns no snippet,
    [get_existing_transcript] returns the empty string with method
    "captions"; the guard of line 126 rejects it and the run goes on to the
    download and, from there, to Whisper. *)
Theorem empty_captions_fall_through w url model vid st :
  extract_video_id url = Some vid ->
  ytt_fetch w vid = Ok [] ->
  fst (get_existing_transcript w url st) = Ok (Some "", "captions") /\
  captions_guard (Some "", "captions") = false /\
  trace (snd (generate_transcript w url model st)) =
    trace st ++ [Stage_captions url; Call_fetch vid] ++ download_events w url ++
    transcribe_events w url model (fs st).
Proof.
  intros Hid Hfetch.
  assert (Hres : captions_result w url = (Some "", "captions")).
  { now rewrite (captions_result_fetched w url vid Hid), Hfetch. }
  split; [|split].
  - rewrite get_existing_transcript_run. cbn [fst]. now rewrite Hres.
  - reflexivity.
  - destruct (generate_transcript_run w url model st (extracted_url_truthy url vid Hid))
      as (new & -> & _).
    cbn [snd trace]. f_equal. rewrite not_found_events.
    + now rewrite (captions_events_valid url vid Hid).
    + unfold captions_found. now rewrite Hres.
Qed.

Lemma empty_captions_fall_through_witness :
  fst (get_existing_transcript w_empty short_url init) = Ok (Some "", "captions") /\
  captions_guard (Some "", "captions") = false /\
  trace (snd (generate_transcript w_empty short_url "base" init)) =
    [Stage_captions short_url; Call_fetch "LadcLQIKbNY"] ++
    download_events w_empty short_url ++ transcribe_events w_empty short_url "base" ∅.
Proof.
  apply (empty_captions_fall_through w_empty short_url "base" "LadcLQIKbNY" init).
  - vm_compute. reflexivity.
  - reflexivity.
Defined.

(** * The claims about the run as a whole *)

Lemma transcribe_needs_download w url model fs0 :
  transcribe_events w url model fs0 <> [] -> download_ok w url fs0 = true.
Proof.
  unfold transcribe_events, actual_audio_path.
  destruct (download_ok w url fs0); [reflexivity|congruence].
Qed.

Lemma count_transcribe_events w url model fs0 :
  count is_transcribe_stage (transcribe_events w url model fs0) =
  match actual_audio_path w url fs0 with Some _ => 1 | None => 0 end.
Proof. unfold transcribe_events. now destruct (actual_audio_path w url fs0). Qed.

Lemma count_download_in_transcribe w url model fs0 :
  count is_download_stage (transcribe_events w url model fs0) = 0.
Proof. unfold transcribe_events. now destruct (actual_audio_path w url fs0). Qed.

(** C6.  In every run (the URL field not empty) the calls are, in this
    order: the captions check; then, exactly when the captions check fails
    (no identifier, the collaborator raised, or it returned nothing), one
    download; then, only when the download succeeded and left an audio
    file, one transcription.  Nothing is called after a stage that failed:
    a failed download is reported and ends the run, and so is a failed
    transcription. *)
Theorem stages_sequential w url model st :
  Py.truthy url = true ->
  exists new new_ui,
    trace (snd (generate_transcript w url model st)) = trace st ++ new /\
    ui (snd (generate_transcript w url model st)) = ui st ++ new_ui /\
    (* the order of the calls *)
    new = captions_events url ++
          (if captions_available w url then []
           else download_events w url ++ transcribe_events w url model (fs st)) /\
    head new = Some (Stage_captions url) /\
    count is_download_stage new = (if captions_available w url then 0 else 1) /\
    count is_transcribe_stage new <= 1 /\
    (count is_transcribe_stage new = 1 ->
     captions_available w url = false /\ download_ok w url (fs st) = true) /\
    (* a failed download is final *)
    (forall e, captions_available w url = false ->
       snd (downloaded w url (fs st)) = Raise e ->
       new = captions_events url ++ download_events w url /\
       reports new_ui = [St_error ("Audio download failed: " +:+ e);
                         St_error "❌ Failed to download video audio"]) /\
    (* a failed transcription is final *)
    (forall p, captions_available w url = false ->
       actual_audio_path w url (fs st) = Some p ->
       (forall t, whisper_text w model p = Ok t -> Py.truthy t = false) ->
       new = captions_events url ++ download_events w url ++
             [Stage_transcribe p model; Call_whisper model p] /\
       reports new_ui = [St_error "❌ Failed to transcribe audio"]).
Proof.
  intros Hurl. rewrite <- (guard_decides_availability w url).
  destruct (generate_transcript_run w url model st Hurl) as (new_ui & -> & Hrep).
  cbn [snd trace ui]. eexists _, new_ui.
  split; [reflexivity|]. split; [reflexivity|].
  unfold expected_events. split; [reflexivity|].
  split; [reflexivity|].
  rewrite !count_app, !count_captions_events by reflexivity.
  unfold expected_reports in Hrep.
  destruct (captions_found w url) eqn:Hfound.
  - repeat split; try (cbn; lia); try discriminate.
  - rewrite !count_app, count_transcribe_events, count_download_in_transcribe.
    cbn [count download_events is_download_stage is_transcribe_stage Nat.add].
    split; [reflexivity|].
    split; [destruct (actual_audio_path w url (fs st)); lia|].
    split.
    { intros Hc. split; [reflexivity|]. apply (transcribe_needs_download w url model).
      unfold transcribe_events. destruct (actual_audio_path w url (fs st)); [discriminate|].
      discriminate Hc. }
    split.
    + intros e _ He. split.
      * unfold transcribe_events, actual_audio_path, download_ok. rewrite He.
        now rewrite app_nil_r.
      * rewrite Hrep. unfold whisper_reports. now rewrite He.
    + intros p _ Hp Hfail. split.
      * unfold transcribe_events. now rewrite Hp.
      * rewrite Hrep. unfold whisper_reports.
        unfold actual_audio_path, download_ok in Hp.
        destruct (snd (downloaded w url (fs st))) as [[]|e]; [|discriminate].
        destruct (audio_files w url (fs st)) as [[|first rest]|]; try discriminate.
        injection Hp as <-.
        destruct (whisper_text w model (path_join (tmp_name w) first)) as [t|e] eqn:Hw;
          [|reflexivity].
        now rewrite (Hfail t eq_refl).
Qed.

Lemma stages_sequential_witness :
  (* captions disabled: one download, then one transcription *)
  (exists new,
     trace (snd (generate_transcript w_disabled short_url "base" init)) = new /\
     head new = Some (Stage_captions short_url) /\
     count is_download_stage new = 1 /\
     count is_transcribe_stage new <= 1) /\
  (* captions found: no download *)
  (exists new,
     trace (snd (generate_transcript w_captions short_url "base" init)) = new /\
     head new = Some (Stage_captions short_url) /\
     count is_download_stage new = 0 /\
     count is_transcribe_stage new <= 1) /\
  (* one snippet with empty text: the check fails, one download *)
  (exists new,
     trace (snd (generate_transcript w_blank short_url "base" init)) = new /\
     head new = Some (Stage_captions short_url) /\
     count is_download_stage new = 1 /\
     count is_transcribe_stage new <= 1).
Proof.
  split; [|split].
  - destruct (stages_sequential w_disabled short_url "base" init eq_refl)
      as (new & new_ui & Htrace & _ & _ & Hhead & Hdown & Htrans & _).
    exists new. split; [exact Htrace|]. split; [exact Hhead|].
    split; [exact Hdown|exact Htrans].
  - destruct (stages_sequential w_captions short_url "base" init eq_refl)
      as (new & new_ui & Htrace & _ & _ & Hhead & Hdown & Htrans & _).
    exists new. split; [exact Htrace|]. split; [exact Hhead|].
    split; [exact Hdown|exact Htrans].
  - destruct (stages_sequential w_blank short_url "base" init eq_refl)
      as (new & new_ui & Htrace & _ & _ & Hhead & Hdown & Htrans & _).
    exists new. split; [exact Htrace|]. split; [exact Hhead|].
    split; [exact Hdown|exact Htrans].
Defined.

Lemma no_audio_file names :
  Forall (fun f => Py.startswith "audio" f = false) names ->
  filter (fun f => Py.startswith "audio" f = true) names = [].
Proof.
  induction 1 as [|f names Hf _ IH]; [reflexivity|].
  rewrite filter_cons, IH. destruct (decide _) as [Ht|]; [congruence|reflexivity].
Qed.

(** C7.  When the captions check fails, the downloader reports success and
    the temporary directory holds no file whose name starts with "audio",
    the run reports "Audio file not found after download" and nothing else,
    and Whisper is not called. *)
Theorem audio_file_missing w url model st names :
  Py.truthy url = true ->
  captions_found w url = false ->
  snd (downloaded w url (fs st)) = Ok tt ->
  fst (downloaded w url (fs st)) !! tmp_name w = Some names ->
  Forall (fun f => Py.startswith "audio" f = false) names ->
  exists new new_ui,
    trace (snd (generate_transcript w url model st)) = trace st ++ new /\
    ui (snd (generate_transcript w url model st)) = ui st ++ new_ui /\
    reports new_ui = [St_error "❌ Audio file not found after download"] /\
    new = captions_events url ++ download_events w url /\
    count is_transcribe_stage new = 0.
Proof.
  intros Hurl Hfound Hok Hdir Hnames.
  destruct (generate_transcript_run w url model st Hurl) as (new_ui & -> & Hrep).
  cbn [snd trace ui]. eexists _, new_ui.
  split; [reflexivity|]. split; [reflexivity|].
  assert (Hfiles : audio_files w url (fs st) = Some []).
  { unfold audio_files. rewrite Hdir. cbn. now rewrite no_audio_file. }
  split; [|split].
  - rewrite Hrep. unfold expected_reports, whisper_reports.
    now rewrite Hfound, Hok, Hfiles.
  - rewrite not_found_events by assumption.
    unfold transcribe_events, actual_audio_path. rewrite Hfiles.
    destruct (download_ok w url (fs st)); now rewrite app_nil_r.
  - rewrite not_found_events by assumption.
    rewrite !count_app, count_transcribe_events, count_captions_events by reflexivity.
    unfold actual_audio_path. rewrite Hfiles.
    now destruct (download_ok w url (fs st)).
Qed.

Lemma audio_file_missing_witness :
  exists new new_ui,
    trace (snd (generate_transcript w_no_audio short_url "base" init)) = trace init ++ new /\
    ui (snd (generate_transcript w_no_audio short_url "base" init)) = ui init ++ new_ui /\
    reports new_ui = [St_error "❌ Audio file not found after download"] /\
    new = captions_events short_url ++ download_events w_no_audio short_url /\
    count is_transcribe_stage new = 0.
Proof.
  apply (audio_file_missing w_no_audio short_url "base" init ["video.webm"]).
  - reflexivity.
  - vm_compute. reflexivity.
  - reflexivity.
  - vm_compute. reflexivity.
  - repeat constructor.
Defined.

(** C8.  A run that takes the download path leaves the file system as the
    downloader left it, minus the temporary directory: the directory made
    for the audio does not exist when the run is over, whatever the
    downloader, the directory listing and Whisper did, exceptions
    included. *)
Theorem temporary_directory_removed w url model st :
  Py.truthy url = true ->
  captions_found w url = false ->
  fs (snd (generate_transcript w url model st)) =
    delete (tmp_name w) (fst (downloaded w url (fs st))) /\
  fs (snd (generate_transcript w url model st)) !! tmp_name w = None /\
  fst (generate_transcript w url model st) = Ok tt.
Proof.
  intros Hurl Hfound.
  destruct (generate_transcript_run w url model st Hurl) as (new_ui & -> & _).
  cbn [fst snd fs]. unfold expected_fs. rewrite Hfound.
  split; [reflexivity|]. split; [apply lookup_delete_eq|reflexivity].
Qed.

(** The exception path: [os.listdir] raises inside the [with] block, the
    handler of line 198 reports it, and the directory is absent all the same. *)
Example listdir_raises_directory_removed :
  let r := generate_transcript w_dir_gone short_url "base" init in
  fst r = Ok tt /\
  reports (ui (snd r)) =
    [St_error "❌ An error occurred: [Errno 2] No such file or directory: '/tmp/tmpk3x9'"] /\
  fs (snd r) !! "/tmp/tmpk3x9" = None.
Proof. vm_compute. repeat split. Qed.

(** The success path through Whisper, end to end. *)
Example whisper_run_end_to_end :
  let r := generate_transcript w_disabled short_url "base" init in
  trace (snd r) =
    [Stage_captions short_url; Call_fetch "LadcLQIKbNY";
     Stage_download short_url "/tmp/tmpk3x9/audio.%(ext)s";
     Call_ydl short_url "/tmp/tmpk3x9/audio.%(ext)s";
     Stage_transcribe "/tmp/tmpk3x9/audio.webm" "base";
     Call_whisper "base" "/tmp/tmpk3x9/audio.webm"] /\
  reports (ui (snd r)) =
    [St_success "🎉 Transcript generated successfully using AI speech recognition!"] /\
  fs (snd r) = ∅.
Proof. vm_compute. repeat split. Qed.

Lemma temporary_directory_removed_witness :
  fs (snd (generate_transcript w_disabled short_url "base" init)) =
    delete (tmp_name w_disabled) (fst (downloaded w_disabled short_url (fs init))) /\
  fs (snd (generate_transcript w_disabled short_url "base" init)) !! tmp_name w_disabled = None /\
  fst (generate_transcript w_disabled short_url "base" init) = Ok tt.
Proof.
  apply (temporary_directory_removed w_disabled short_url "base" init).
  - reflexivity.
  - vm_compute. reflexivity.
Defined.

(** * More about the URL resolver *)

(** ** Strings, continued *)

Lemma append_cons a s t : String a s +:+ t = String a (s +:+ t).
Proof. reflexivity. Qed.

Lemma append_assoc_s s t u : (s +:+ t) +:+ u = s +:+ (t +:+ u).
Proof. induction s as [|a s IH]; [reflexivity|]. now rewrite !append_cons, IH. Qed.

Lemma append_empty_r s : s +:+ "" = s.
Proof. induction s as [|a s IH]; [reflexivity|]. now rewrite append_cons, IH. Qed.

Lemma contains_append_r c s t : Py.contains c t = true -> Py.contains c (s +:+ t) = true.
Proof.
  intros H. induction s as [|a s IH]; [exact H|].
  rewrite append_cons. simpl. now destruct (Ascii.eqb a c).
Qed.

Lemma contains_append_l c s t : Py.contains c s = true -> Py.contains c (s +:+ t) = true.
Proof.
  induction s as [|a s IH]; [discriminate|].
  rewrite append_cons. simpl. destruct (Ascii.eqb a c); auto.
Qed.

Lemma cut_before_prefix f s : exists rest, s = cut_before f s +:+ rest.
Proof.
  induction s as [|a s [rest IH]]; [now exists ""|]. simpl.
  destruct (f a).
  - now exists (String a s).
  - exists rest. now rewrite append_cons, <- IH.
Qed.

Lemma strip_params_prefix url : exists rest, url = strip_params url +:+ rest.
Proof.
  rewrite strip_params_cut. destruct (Py.contains "?" url).
  - apply cut_before_prefix.
  - exists "". now rewrite append_empty_r.
Qed.

Lemma take_drop n s : Py.take n s +:+ Py.drop n s = s.
Proof.
  unfold Py.take. revert s. induction n as [|n IH]; intros [|a s]; try reflexivity.
  simpl. rewrite append_cons. now rewrite IH.
Qed.

Lemma class_run_cons p n a t :
  class_run p (S n) (String a t) = p a && class_run p n t.
Proof.
  unfold class_run, Py.take. simpl.
  destruct (p a); simpl; [reflexivity|]. now rewrite andb_false_r.
Qed.

Lemma class_run_append p s t :
  Py.all p s = true -> class_run p (String.length s) (s +:+ t) = true /\
                       Py.take (String.length s) (s +:+ t) = s.
Proof.
  induction s as [|a s IH]; intros H.
  - split; [|now destruct t]. unfold class_run. simpl. now destruct t.
  - simpl in H. apply andb_prop in H as [Ha Hs]. destruct (IH Hs) as [IH1 IH2].
    rewrite append_cons. simpl String.length. split.
    + now rewrite class_run_cons, Ha, IH1.
    + unfold Py.take in *. simpl. now rewrite IH2.
Qed.

(** ** The matcher, continued *)

Lemma exec_lit_app {A} l t (k : string -> option A) : Re.exec (Re.lit l) (l +:+ t) k = k t.
Proof.
  induction l as [|a l IH]; [reflexivity|].
  rewrite append_cons. simpl. now rewrite Ascii.eqb_refl.
Qed.

Lemma exec_lit_some {A} l s (k : string -> option A) x :
  Re.exec (Re.lit l) s k = Some x -> exists t, s = l +:+ t /\ k t = Some x.
Proof.
  revert s. induction l as [|a l IH]; intros s H; simpl in H.
  - now exists s.
  - destruct s as [|c s]; [discriminate|].
    destruct (Ascii.eqb c a) eqn:E; [|discriminate].
    apply Ascii.eqb_eq in E as ->. apply IH in H as (t & -> & Hk).
    now exists t.
Qed.

Lemma exec_stardot_const {A} s (x : A) : Re.exec Re.StarDot s (fun _ => Some x) = Some x.
Proof.
  induction s as [|a s IH]; [reflexivity|]. simpl in *.
  destruct (Re.is_newline a); [reflexivity|]. now rewrite IH.
Qed.

(** What the group and the rest of a pattern do once the literal part is
    consumed. *)
Lemma group_then_after a t :
  a = Re.Eps \/ a = Re.StarDot ->
  Re.exec id_group t (fun s2 => Re.exec a s2 (fun _ =>
     Some (Py.take (String.length t - String.length s2) t))) = take_id t.
Proof.
  intros Ha. unfold id_group, take_id. rewrite exec_rep_cls.
  destruct (class_run id_char 11 t) eqn:Hrun; [|reflexivity].
  apply andb_prop in Hrun as [Hlen _]. apply Nat.leb_le in Hlen.
  rewrite take_drop_length by assumption.
  destruct Ha as [-> | ->]; [reflexivity|apply exec_stardot_const].
Qed.

Lemma match_here_lit l a s g :
  a = Re.Eps \/ a = Re.StarDot ->
  Re.match_here (Re.Pattern (Re.lit l) id_group a) s = Some g ->
  exists t, s = l +:+ t /\ take_id t = Some g.
Proof.
  intros Ha H. unfold Re.match_here in H. cbn [Re.before Re.group1 Re.after] in H.
  apply exec_lit_some in H as (t & -> & H). exists t. split; [reflexivity|].
  now rewrite group_then_after in H.
Qed.

Lemma match_here_v_some s g :
  Re.match_here pattern_v s = Some g ->
  exists t, (s = "v=" +:+ t \/ s = "/" +:+ t) /\ take_id t = Some g.
Proof.
  intros H. unfold Re.match_here, pattern_v in H. cbn [Re.before Re.group1 Re.after] in H.
  match type of H with Re.exec _ _ ?k0 = _ => set (k := k0) in H end.
  change (match Re.exec (Re.lit "v=") s k with
          | Some x => Some x
          | None => Re.exec (Re.lit "/") s k
          end = Some g) in H.
  destruct (Re.exec (Re.lit "v=") s k) as [x|] eqn:E.
  - injection H as ->. apply exec_lit_some in E as (t & -> & E).
    exists t. split; [now left|].
    subst k. cbn beta in E. rewrite group_then_after in E; auto.
  - apply exec_lit_some in H as (t & -> & H).
    exists t. split; [now right|].
    subst k. cbn beta in H. rewrite group_then_after in H; auto.
Qed.

Lemma match_here_v_slash t g :
  take_id t = Some g -> Re.match_here pattern_v ("/" +:+ t) = Some g.
Proof.
  intros H. unfold Re.match_here, pattern_v. cbn [Re.before Re.group1 Re.after].
  change (Re.exec (Re.Alt (Re.lit "v=") (Re.lit "/")) ("/" +:+ t) ?k)
    with (Re.exec (Re.lit "/") ("/" +:+ t) k).
  rewrite exec_lit_app, group_then_after; auto.
Qed.

Lemma search_cons p a s :
  Re.search p (String a s) =
  match Re.match_here p (String a s) with Some g => Some g | None => Re.search p s end.
Proof. reflexivity. Qed.

Lemma search_some p s g :
  Re.search p s = Some g ->
  exists pre s', s = pre +:+ s' /\ Re.match_here p s' = Some g.
Proof.
  induction s as [|a s IH]; intros H.
  - simpl in H. destruct (Re.match_here p "") eqn:E; [|discriminate].
    injection H as ->. now exists "", "".
  - rewrite search_cons in H. destruct (Re.match_here p (String a s)) eqn:E.
    + injection H as ->. now exists "", (String a s).
    + apply IH in H as (pre & s' & -> & H). now exists (String a pre), s'.
Qed.

Lemma search_finds p pre s' g :
  Re.match_here p s' = Some g -> exists g', Re.search p (pre +:+ s') = Some g'.
Proof.
  intros H. induction pre as [|a pre [g' IH]].
  - exists g. change ("" +:+ s') with s'. destruct s'; simpl; now rewrite H.
  - rewrite append_cons, search_cons.
    destruct (Re.match_here p (String a (pre +:+ s'))) as [g''|]; eauto.
Qed.

(** A match of the second or of the third pattern brings a match of the
    first: the '/' that ends their literal part is followed by the
    identifier. *)
Lemma slash_pattern_shadowed l s g :
  Re.search (Re.Pattern (Re.lit (l +:+ "/")) id_group Re.Eps) s = Some g ->
  exists g', Re.search pattern_v s = Some g'.
Proof.
  intros H. apply search_some in H as (pre & s' & -> & H).
  apply match_here_lit in H as (t & -> & Ht); [|now left].
  rewrite append_assoc_s, <- append_assoc_s.
  apply (search_finds pattern_v (pre +:+ l) ("/" +:+ t) g).
  now apply match_here_v_slash.
Qed.

Lemma first_match_is_first_pattern s : first_match patterns s = Re.search pattern_v s.
Proof.
  unfold patterns. cbn [first_match].
  destruct (Re.search pattern_v s) as [v|] eqn:Ev.
  - apply search_group in Ev as [-> _]. reflexivity.
  - destruct (Re.search pattern_short s) as [g|] eqn:Es.
    { apply (slash_pattern_shadowed "youtu.be") in Es as [g' Es]. congruence. }
    destruct (Re.search pattern_embed s) as [g|] eqn:Ee.
    { apply (slash_pattern_shadowed "embed") in Ee as [g' Ee]. congruence. }
    reflexivity.
Qed.

(** ** Which URLs resolve, and to what *)

Lemma id_char_not_separator a : id_char a = true -> is_separator a = false.
Proof.
  intros H. unfold is_separator.
  destruct (Ascii.eqb a "&") eqn:E1; [apply Ascii.eqb_eq in E1; subst; discriminate H|].
  destruct (Ascii.eqb a "?") eqn:E2; [apply Ascii.eqb_eq in E2; subst; discriminate H|].
  reflexivity.
Qed.

Lemma all_id_no_separator s :
  Py.all id_char s = true -> Py.all (fun c => negb (is_separator c)) s = true.
Proof.
  induction s as [|a s IH]; [reflexivity|]. simpl. intros H.
  apply andb_prop in H as [Ha Hs]. now rewrite (id_char_not_separator a Ha), IH.
Qed.

Lemma all_append f s t : Py.all f (s +:+ t) = Py.all f s && Py.all f t.
Proof.
  induction s as [|a s IH]; [reflexivity|].
  rewrite append_cons. simpl. now rewrite IH, andb_assoc.
Qed.

Lemma cut_before_append f s t :
  Py.all (fun c => negb (f c)) s = true ->
  cut_before f (s +:+ t) = s +:+ cut_before f t.
Proof.
  induction s as [|a s IH]; [reflexivity|]. simpl. intros H.
  apply andb_prop in H as [Ha Hs]. apply negb_true_iff in Ha.
  rewrite append_cons. simpl. now rewrite Ha, IH.
Qed.

(** A URL keeps, through line 24, any beginning that has no '&' and no '?'. *)
Lemma strip_params_keeps pre rest :
  Py.all (fun c => negb (is_separator c)) pre = true ->
  exists rest', strip_params (pre +:+ rest) = pre +:+ rest'.
Proof.
  intros H. rewrite strip_params_cut. destruct (Py.contains "?" (pre +:+ rest)).
  - exists (cut_before is_separator rest). now apply cut_before_append.
  - now exists rest.
Qed.

Lemma take_id_append id rest :
  String.length id = 11 -> Py.all id_char id = true -> take_id (id +:+ rest) = Some id.
Proof.
  intros Hlen Hall. unfold take_id.
  destruct (class_run_append id_char id rest Hall) as [Hrun Htake].
  rewrite Hlen in Hrun, Htake. now rewrite Hrun, Htake.
Qed.

(** One step of the scan over a position where the first pattern cannot
    match. *)
Ltac skip_position :=
  rewrite search_cons;
  match goal with
  | |- context [Re.match_here pattern_v ?s] =>
      let E := fresh "E" in
      let Ht := fresh "Ht" in
      let Hid := fresh "Hid" in
      destruct (Re.match_here pattern_v s) as [?|] eqn:E;
      [ exfalso; apply match_here_v_some in E as (? & [Ht|Ht] & Hid);
        cbv [String.append] in Ht;
        [ discriminate Ht
        | try discriminate Ht; injection Ht as Ht; subst; unfold take_id in Hid;
          rewrite !class_run_cons in Hid; cbn -[class_run] in Hid; discriminate Hid ]
      | ]
  end.

Lemma search_after_short_prefix t g :
  take_id t = Some g -> Re.search pattern_v ("https://youtu.be/" +:+ t) = Some g.
Proof.
  intros H. rewrite !append_cons. change (String.append EmptyString t) with t.
  do 16 skip_position.
  rewrite search_cons. change (String "/" t) with ("/" +:+ t).
  now rewrite (match_here_v_slash t g H).
Qed.

Lemma search_after_embed_prefix t g :
  take_id t = Some g -> Re.search pattern_v ("https://www.youtube.com/embed/" +:+ t) = Some g.
Proof.
  intros H. rewrite !append_cons. change (String.append EmptyString t) with t.
  do 29 skip_position.
  rewrite search_cons. change (String "/" t) with ("/" +:+ t).
  now rewrite (match_here_v_slash t g H).
Qed.

(** X1.  The second and the third pattern never decide the result: for every
    URL, [extract_video_id] returns what [re.search] finds with the first
    pattern alone in the preprocessed URL. *)
Theorem later_patterns_never_decide (url : string) :
  extract_video_id url = Re.search pattern_v (strip_params url).
Proof. unfold extract_video_id. apply first_match_is_first_pattern. Qed.

Lemma extracted_id_after_marker url v :
  extract_video_id url = Some v ->
  exists pre post,
    url = pre +:+ "/" +:+ v +:+ post \/ url = pre +:+ "v=" +:+ v +:+ post.
Proof.
  intros H. unfold extract_video_id in H. rewrite first_match_is_first_pattern in H.
  apply search_some in H as (pre & s' & Hs & H).
  apply match_here_v_some in H as (t & Hsep & Hid).
  unfold take_id in Hid. destruct (class_run id_char 11 t); [|discriminate].
  injection Hid as <-.
  destruct (strip_params_prefix url) as [rest Hurl].
  exists pre, (Py.drop 11 t +:+ rest).
  rewrite Hurl, Hs.
  destruct Hsep as [-> | ->]; [right|left];
    rewrite !append_assoc_s; do 2 f_equal;
    now rewrite <- append_assoc_s, take_drop.
Qed.

(** X2.  An identifier that is returned stands in the URL as typed, right
    after a '/' or after "v=". *)
Theorem extracted_id_occurs_in_url (url v : string) :
  extract_video_id url = Some v ->
  exists pre post,
    url = pre +:+ "/" +:+ v +:+ post \/ url = pre +:+ "v=" +:+ v +:+ post.
Proof. apply extracted_id_after_marker. Qed.

Lemma extracted_id_occurs_in_url_witness :
  exists pre post,
    "https://youtu.be/LadcLQIKbNY?si=abc" = pre +:+ "/" +:+ "LadcLQIKbNY" +:+ post \/
    "https://youtu.be/LadcLQIKbNY?si=abc" = pre +:+ "v=" +:+ "LadcLQIKbNY" +:+ post.
Proof.
  apply (extracted_id_occurs_in_url "https://youtu.be/LadcLQIKbNY?si=abc" "LadcLQIKbNY").
  vm_compute. reflexivity.
Defined.

(** X3.  A string with no '/' and no '=' in it yields no identifier; a bare
    11-character identifier, pasted without a URL around it, is one. *)
Theorem no_marker_no_id (url : string) :
  Py.contains "/" url = false ->
  Py.contains "=" url = false ->
  extract_video_id url = None.
Proof.
  intros Hslash Heq. destruct (extract_video_id url) as [v|] eqn:E; [|reflexivity].
  exfalso. apply extracted_id_after_marker in E as (pre & post & [-> | ->]).
  - rewrite contains_append_r in Hslash; [discriminate|reflexivity].
  - rewrite contains_append_r in Heq; [discriminate|reflexivity].
Qed.

Lemma no_marker_no_id_witness : extract_video_id "LadcLQIKbNY" = None.
Proof. apply no_marker_no_id; reflexivity. Defined.

(** X4.  Every short link resolves: for every identifier of 11 characters
    of the class and whatever follows it, ["https://youtu.be/" + id + rest]
    yields [id] (of a longer run of such characters, the first 11). *)
Theorem short_link_resolves (id rest : string) :
  String.length id = 11 ->
  Py.all id_char id = true ->
  extract_video_id ("https://youtu.be/" +:+ id +:+ rest) = Some id.
Proof.
  intros Hlen Hall. unfold extract_video_id.
  destruct (strip_params_keeps ("https://youtu.be/" +:+ id) rest) as [rest' Hs].
  { rewrite all_append, (all_id_no_separator id Hall). reflexivity. }
  rewrite <- append_assoc_s, Hs, append_assoc_s, first_match_is_first_pattern.
  apply search_after_short_prefix. now apply take_id_append.
Qed.

Lemma short_link_resolves_witness :
  extract_video_id ("https://youtu.be/" +:+ "LadcLQIKbNY" +:+ "?si=abc&t=10") =
  Some "LadcLQIKbNY".
Proof. apply short_link_resolves; reflexivity. Defined.

(** X5.  Every embed link resolves: for every identifier of 11 characters
    of the class and whatever follows it,
    ["https://www.youtube.com/embed/" + id + rest] yields [id]. *)
Theorem embed_link_resolves (id rest : string) :
  String.length id = 11 ->
  Py.all id_char id = true ->
  extract_video_id ("https://www.youtube.com/embed/" +:+ id +:+ rest) = Some id.
Proof.
  intros Hlen Hall. unfold extract_video_id.
  destruct (strip_params_keeps ("https://www.youtube.com/embed/" +:+ id) rest) as [rest' Hs].
  { rewrite all_append, (all_id_no_separator id Hall). reflexivity. }
  rewrite <- append_assoc_s, Hs, append_assoc_s, first_match_is_first_pattern.
  apply search_after_embed_prefix. now apply take_id_append.
Qed.

Lemma embed_link_resolves_witness :
  extract_video_id ("https://www.youtube.com/embed/" +:+ "dQw4w9WgXcQ" +:+ "?start=30") =
  Some "dQw4w9WgXcQ".
Proof. apply embed_link_resolves; reflexivity. Defined.

(** X6.  The host is not looked at: when the host name of an https URL
    begins with 11 characters of the class, these are returned as the
    identifier, whatever follows (a real identifier included). *)
Theorem host_taken_as_id (g rest : string) :
  String.length g = 11 ->
  Py.all id_char g = true ->
  extract_video_id ("https://" +:+ g +:+ rest) = Some g.
Proof.
  intros Hlen Hall. unfold extract_video_id.
  destruct (strip_params_keeps ("https://" +:+ g) rest) as [rest' Hs].
  { rewrite all_append, (all_id_no_separator g Hall). reflexivity. }
  rewrite <- append_assoc_s, Hs, append_assoc_s, first_match_is_first_pattern.
  generalize (take_id_append g rest' Hlen Hall). generalize (g +:+ rest'). intros t Ht.
  rewrite !append_cons. change (String.append EmptyString t) with t.
  do 7 skip_position.
  rewrite search_cons. change (String "/" t) with ("/" +:+ t).
  now rewrite (match_here_v_slash t g Ht).
Qed.

Lemma host_taken_as_id_witness :
  extract_video_id ("https://" +:+ "youtube-noc" +:+ "ookie.com/embed/dQw4w9WgXcQ") =
  Some "youtube-noc".
Proof. apply host_taken_as_id; reflexivity. Defined.

(** * More about the pipeline *)

(** ** What [get_existing_transcript] hands to the guard *)

(** X7.  In every result that [get_existing_transcript] returns, the method
    is "captions" exactly when there is a transcript (neither failure
    reason reads "captions"), so the second half of the guard of line 126
    never decides; and the call has changed neither the file system nor
    the page. *)
Theorem captions_method_invariant w url st r st' :
  get_existing_transcript w url st = (Ok r, st') ->
  (snd r = "captions" <-> fst r <> None) /\
  captions_guard r = Py.truthy_opt (fst r) /\
  fs st' = fs st /\ ui st' = ui st.
Proof.
  rewrite get_existing_transcript_run. intros [= <- <-]. cbn [fs ui].
  assert (H : (snd (captions_result w url) = "captions" <->
               fst (captions_result w url) <> None) /\
              captions_guard (captions_result w url) =
              Py.truthy_opt (fst (captions_result w url))).
  { unfold captions_result, captions_guard.
    destruct (extract_video_id url) as [vid|];
      [|cbn [fst snd]; split; [split; [discriminate|congruence]|reflexivity]].
    destruct (Py.truthy vid);
      [|cbn [fst snd]; split; [split; [discriminate|congruence]|reflexivity]].
    destruct (ytt_fetch w vid) as [raw|e]; cbn [fst snd Py.truthy_opt].
    - split; [split; [discriminate|reflexivity]|apply andb_true_r].
    - split; [split; [discriminate|congruence]|reflexivity]. }
  destruct H as [H1 H2]. repeat split; try assumption; apply H1.
Qed.

Lemma captions_method_invariant_witness :
  (snd (@None string, "No captions: Subtitles are disabled for this video") = "captions" <->
   fst (@None string, "No captions: Subtitles are disabled for this video") <> None) /\
  captions_guard (None, "No captions: Subtitles are disabled for this video") =
    Py.truthy_opt (fst (@None string, "No captions: Subtitles are disabled for this video")) /\
  fs (State ∅ [Stage_captions short_url; Call_fetch "LadcLQIKbNY"] []) = fs init /\
  ui (State ∅ [Stage_captions short_url; Call_fetch "LadcLQIKbNY"] []) = ui init.
Proof.
  apply (captions_method_invariant w_disabled short_url init).
  vm_compute. reflexivity.
Defined.

(** ** The button handler, path by path *)

(** X12.  The [finally] of line 200: in every run the progress bar is
    created first, and the progress bar and the status line are cleared
    last, also when a stage fails or raises. *)
Theorem progress_cleared_last w url model st :
  Py.truthy url = true ->
  exists mid,
    ui (snd (generate_transcript w url model st)) =
    ui st ++ St_progress 0 :: mid ++ [St_empty_progress; St_empty_status].
Proof.
  intros Hurl. unfold generate_transcript. rewrite Hurl.
  unfold mbind at 1, M_bind at 1, show at 1. cbn [fs trace ui].
  unfold try_finally, try_except.
  unfold mbind at 1 2 3, M_bind at 1 2 3, show at 1 2. cbn [fs trace ui].
  rewrite get_existing_transcript_run. cbn [fs trace ui].
  destruct (captions_guard (captions_result w url)).
  - unfold present_captions. unfold_monad.
    exists [St_status "🔍 Checking for existing captions...";
            St_progress 20;
            St_status "✅ Found existing captions!";
            St_progress 100;
            St_success "🎉 Transcript generated successfully using existing captions!";
            St_text_area "Transcript Content" (str_opt (fst (captions_result w url)));
            St_download_button "📥 Download as TXT" (str_opt (fst (captions_result w url)))
              ("transcript_" +:+ str_opt (extract_video_id url) +:+ ".txt");
            St_info "💡 You can also copy the text directly from the transcript area above"].
    rewrite <- !app_assoc. reflexivity.
  - match goal with |- context [whisper_path w url model ?s] =>
      destruct (whisper_path_run w url model s) as (r & new & -> & _)
    end.
    cbn [fs trace ui]. destruct r as [[]|e]; unfold_monad.
    + exists ([St_status "🔍 Checking for existing captions..."; St_progress 20] ++ new).
      rewrite <- !app_assoc. reflexivity.
    + exists ([St_status "🔍 Checking for existing captions..."; St_progress 20] ++ new ++
              [St_error ("❌ An error occurred: " +:+ e)]).
      rewrite <- !app_assoc. reflexivity.
Qed.

Lemma progress_cleared_last_witness :
  exists mid,
    ui (snd (generate_transcript w_dir_gone short_url "base" init)) =
    ui init ++ St_progress 0 :: mid ++ [St_empty_progress; St_empty_status].
Proof. apply (progress_cleared_last w_dir_gone short_url "base" init). reflexivity. Defined.

Lemma captions_path_run w url model st :
  Py.truthy url = true ->
  captions_found w url = true ->
  generate_transcript w url model st =
  (Ok tt,
   State (fs st) (trace st ++ captions_events url)
     (ui st ++
      [St_progress 0;
       St_status "🔍 Checking for existing captions...";
       St_progress 20;
       St_status "✅ Found existing captions!";
       St_progress 100;
       St_success "🎉 Transcript generated successfully using existing captions!";
       St_text_area "Transcript Content" (str_opt (fst (captions_result w url)));
       St_download_button "📥 Download as TXT" (str_opt (fst (captions_result w url)))
         ("transcript_" +:+ str_opt (extract_video_id url) +:+ ".txt");
       St_info "💡 You can also copy the text directly from the transcript area above";
       St_empty_progress;
       St_empty_status])).
Proof.
  intros Hurl Hfound. unfold generate_transcript. rewrite Hurl.
  unfold mbind at 1, M_bind at 1, show at 1. cbn [fs trace ui].
  unfold try_finally, try_except.
  unfold mbind at 1 2 3, M_bind at 1 2 3, show at 1 2. cbn [fs trace ui].
  rewrite get_existing_transcript_run. cbn [fs trace ui].
  unfold captions_found in Hfound. rewrite Hfound.
  unfold present_captions. unfold_monad.
  now rewrite <- !app_assoc.
Qed.

(** X13.  When captions are found (the text is not empty), the page shows
    the joined text in the text area and offers the same text for download
    under the name ["transcript_" + id + ".txt"]; the run calls the captions
    collaborator only and leaves the file system as it was: no temporary
    directory is made. *)
Theorem captions_presented w url model vid entries st :
  extract_video_id url = Some vid ->
  ytt_fetch w vid = Ok entries ->
  Py.join Py.nl (map text entries) <> "" ->
  let blob := Py.join Py.nl (map text entries) in
  generate_transcript w url model st =
  (Ok tt,
   State (fs st) (trace st ++ [Stage_captions url; Call_fetch vid])
     (ui st ++
      [St_progress 0;
       St_status "🔍 Checking for existing captions...";
       St_progress 20;
       St_status "✅ Found existing captions!";
       St_progress 100;
       St_success "🎉 Transcript generated successfully using existing captions!";
       St_text_area "Transcript Content" blob;
       St_download_button "📥 Download as TXT" blob ("transcript_" +:+ vid +:+ ".txt");
       St_info "💡 You can also copy the text directly from the transcript area above";
       St_empty_progress;
       St_empty_status])).
Proof.
  intros Hid Hfetch Hblob blob.
  assert (Hres : captions_result w url = (Some blob, "captions")).
  { now rewrite (captions_result_fetched w url vid Hid), Hfetch. }
  rewrite captions_path_run.
  - now rewrite Hres, Hid, (captions_events_valid url vid Hid).
  - exact (extracted_url_truthy url vid Hid).
  - unfold captions_found, captions_guard. rewrite Hres. cbn [fst snd Py.truthy_opt].
    fold blob in Hblob. destruct blob; [congruence|reflexivity].
Qed.

Lemma captions_presented_witness :
  generate_transcript w_captions short_url "base" init =
  (Ok tt,
   State ∅ [Stage_captions short_url; Call_fetch "LadcLQIKbNY"]
     [St_progress 0;
      St_status "🔍 Checking for existing captions...";
      St_progress 20;
      St_status "✅ Found existing captions!";
      St_progress 100;
      St_success "🎉 Transcript generated successfully using existing captions!";
      St_text_area "Transcript Content" (Py.join Py.nl ["Hello"; "world"]);
      St_download_button "📥 Download as TXT" (Py.join Py.nl ["Hello"; "world"])
        "transcript_LadcLQIKbNY.txt";
      St_info "💡 You can also copy the text directly from the transcript area above";
      St_empty_progress;
      St_empty_status]).
Proof.
  apply (captions_presented w_captions short_url "base" "LadcLQIKbNY"
           [Entry "Hello" 0 1500; Entry "world" 1500 2000] init).
  - vm_compute. reflexivity.
  - reflexivity.
  - vm_compute. discriminate.
Defined.

(** X14.  The Whisper path, when everything works: the file handed to
    Whisper is the first name in the listing of the temporary directory
    that starts with "audio", the selected model size is passed on as it
    is, the page shows the transcribed text and offers it for download
    under ["ai_transcript_" + id + ".txt"], where [id] reads "None" when no
    identifier could be extracted from the URL; the temporary directory is
    removed. *)
Theorem whisper_presented w url model st fs' names first others t :
  Py.truthy url = true ->
  captions_found w url = false ->
  downloaded w url (fs st) = (fs', Ok tt) ->
  fs' !! tmp_name w = Some names ->
  filter (fun f => Py.startswith "audio" f = true) names = first :: others ->
  whisper_text w model (path_join (tmp_name w) first) = Ok t ->
  Py.truthy t = true ->
  generate_transcript w url model st =
  (Ok tt,
   State (delete (tmp_name w) fs')
     (trace st ++ captions_events url ++
      [Stage_download url (audio_template w);
       Call_ydl url (audio_template w);
       Stage_transcribe (path_join (tmp_name w) first) model;
       Call_whisper model (path_join (tmp_name w) first)])
     (ui st ++
      [St_progress 0;
       St_status "🔍 Checking for existing captions...";
       St_progress 20;
       St_status "🎵 No captions found. Downloading audio...";
       St_progress 40;
       St_status "🤖 Transcribing with Whisper AI...";
       St_progress 70;
       St_status "✅ AI transcription completed!";
       St_progress 100;
       St_success "🎉 Transcript generated successfully using AI speech recognition!";
       St_text_area "AI-Generated Transcript" t;
       St_download_button "📥 Download as TXT" t
         ("ai_transcript_" +:+
          match extract_video_id url with Some id => id | None => "None" end +:+ ".txt");
       St_info ("📊 Generated using Whisper '" +:+ model +:+ "' model");
       St_empty_progress;
       St_empty_status])).
Proof.
  intros Hurl Hfound Hdown Hdir Hfiles Hwhisper Htext.
  unfold generate_transcript. rewrite Hurl.
  unfold mbind at 1, M_bind at 1, show at 1. cbn [fs trace ui].
  unfold try_finally, try_except.
  unfold mbind at 1 2 3, M_bind at 1 2 3, show at 1 2. cbn [fs trace ui].
  rewrite get_existing_transcript_run. cbn [fs trace ui].
  unfold captions_found in Hfound. rewrite Hfound.
  unfold whisper_path, with_temporary_directory.
  unfold mbind at 1 2, M_bind at 1 2, show at 1 2. cbn [fs trace ui].
  unfold mbind at 1, M_bind at 1. rewrite download_audio_run. cbn [fs trace ui].
  unfold downloaded in Hdown. fold (audio_template w). rewrite Hdown. cbn [fst snd].
  unfold mbind at 1 2 3, M_bind at 1 2 3, show at 1 2, listdir. cbn [fs trace ui].
  rewrite Hdir, Hfiles.
  unfold mbind at 1, M_bind at 1. rewrite transcribe_with_whisper_run.
  cbn [fs trace ui]. rewrite Hwhisper. cbn [fst Py.truthy_opt str_opt]. rewrite Htext.
  unfold present_whisper. unfold_monad.
  rewrite <- !app_assoc. reflexivity.
Qed.

Lemma whisper_presented_witness :
  generate_transcript w_disabled "https://www.youtube.com/watch?v=dQw4w9WgXcQ" "small" init =
  (Ok tt,
   State (delete "/tmp/tmpk3x9" (<["/tmp/tmpk3x9" := ["audio.webm"]]> ∅))
     ([] ++ captions_events "https://www.youtube.com/watch?v=dQw4w9WgXcQ" ++
      [Stage_download "https://www.youtube.com/watch?v=dQw4w9WgXcQ" (audio_template w_disabled);
       Call_ydl "https://www.youtube.com/watch?v=dQw4w9WgXcQ" (audio_template w_disabled);
       Stage_transcribe (path_join "/tmp/tmpk3x9" "audio.webm") "small";
       Call_whisper "small" (path_join "/tmp/tmpk3x9" "audio.webm")])
     ([] ++
      [St_progress 0;
       St_status "🔍 Checking for existing captions...";
       St_progress 20;
       St_status "🎵 No captions found. Downloading audio...";
       St_progress 40;
       St_status "🤖 Transcribing with Whisper AI...";
       St_progress 70;
       St_status "✅ AI transcription completed!";
       St_progress 100;
       St_success "🎉 Transcript generated successfully using AI speech recognition!";
       St_text_area "AI-Generated Transcript" "hello world";
       St_download_button "📥 Download as TXT" "hello world"
         ("ai_transcript_" +:+
          match extract_video_id "https://www.youtube.com/watch?v=dQw4w9WgXcQ" with
          | Some id => id
          | None => "None"
          end +:+ ".txt");
       St_info ("📊 Generated using Whisper '" +:+ "small" +:+ "' model");
       St_empty_progress;
       St_empty_status])).
Proof.
  apply (whisper_presented w_disabled "https://www.youtube.com/watch?v=dQw4w9WgXcQ" "small"
           init (<["/tmp/tmpk3x9" := ["audio.webm"]]> ∅) ["audio.webm"] "audio.webm" []
           "hello world").
  - reflexivity.
  - vm_compute. reflexivity.
  - vm_compute. reflexivity.
  - vm_compute. reflexivity.
  - vm_compute. reflexivity.
  - reflexivity.
  - reflexivity.
Defined.

(** The download of a watch URL is named after "None". *)
Example watch_url_download_name :
  In (St_download_button "📥 Download as TXT" "hello world" "ai_transcript_None.txt")
     (ui (snd (generate_transcript w_disabled
                 "https://www.youtube.com/watch?v=dQw4w9WgXcQ" "small" init))).
Proof. vm_compute. tauto. Qed.

(** X15.  The catch-all of line 198: when the temporary directory is gone
    after a download that reported success, [os.listdir] raises inside the
    [with] block; the handler reports "An error occurred: " with the
    message and nothing else, and Whisper is not called. *)
Theorem listing_error_reported w url model st :
  Py.truthy url = true ->
  captions_found w url = false ->
  snd (downloaded w url (fs st)) = Ok tt ->
  fst (downloaded w url (fs st)) !! tmp_name w = None ->
  exists new_ui,
    generate_transcript w url model st =
      (Ok tt,
       State (delete (tmp_name w) (fst (downloaded w url (fs st))))
         (trace st ++ captions_events url ++ download_events w url)
         (ui st ++ new_ui)) /\
    reports new_ui =
      [St_error ("❌ An error occurred: [Errno 2] No such file or directory: '" +:+
                 tmp_name w +:+ "'")].
Proof.
  intros Hurl Hfound Hok Hdir.
  destruct (generate_transcript_run w url model st Hurl) as (new_ui & -> & Hrep).
  exists new_ui. split.
  - unfold expected_fs. rewrite Hfound, not_found_events by assumption.
    unfold transcribe_events, actual_audio_path, audio_files. rewrite Hdir.
    cbn [fmap option_fmap option_map].
    destruct (download_ok w url (fs st)); now rewrite app_nil_r.
  - rewrite Hrep. unfold expected_reports, whisper_reports, audio_files.
    now rewrite Hfound, Hok, Hdir.
Qed.

Lemma listing_error_reported_witness :
  exists new_ui,
    generate_transcript w_dir_gone short_url "base" init =
      (Ok tt,
       State (delete (tmp_name w_dir_gone) (fst (downloaded w_dir_gone short_url (fs init))))
         (trace init ++ captions_events short_url ++ download_events w_dir_gone short_url)
         (ui init ++ new_ui)) /\
    reports new_ui =
      [St_error ("❌ An error occurred: [Errno 2] No such file or directory: '" +:+
                 tmp_name w_dir_gone +:+ "'")].
Proof.
  apply (listing_error_reported w_dir_gone short_url "base" init).
  - reflexivity.
  - vm_compute. reflexivity.
  - reflexivity.
  - vm_compute. reflexivity.
Defined.

(** X16.  The debug expander, for a URL field that is not empty, writes
    three lines: the URL as typed, the identifier or "None", and a length
    that reads "11" whenever an identifier is shown and "None" otherwise. *)
Theorem debug_information_lines (url : string) :
  Py.truthy url = true ->
  debug_information url =
  match extract_video_id url with
  | Some id =>
      ["**Input URL:** " +:+ url;
       "**Extracted Video ID:** " +:+ id;
       "**Video ID Length:** 11"]
  | None =>
      ["**Input URL:** " +:+ url;
       "**Extracted Video ID:** None";
       "**Video ID Length:** None"]
  end.
Proof.
  intros Hurl. unfold debug_information. rewrite Hurl.
  destruct (extract_video_id url) as [id|] eqn:E; [|reflexivity].
  cbn [Py.truthy_opt str_opt]. rewrite (extracted_id_truthy url id E).
  destruct (extracted_id_shape url id E) as [-> _]. reflexivity.
Qed.

Lemma debug_information_lines_witness :
  debug_information "https://youtu.be/LadcLQIKbNY?si=abc" =
  match extract_video_id "https://youtu.be/LadcLQIKbNY?si=abc" with
  | Some id =>
      ["**Input URL:** " +:+ "https://youtu.be/LadcLQIKbNY?si=abc";
       "**Extracted Video ID:** " +:+ id;
       "**Video ID Length:** 11"]
  | None =>
      ["**Input URL:** " +:+ "https://youtu.be/LadcLQIKbNY?si=abc";
       "**Extracted Video ID:** None";
       "**Video ID Length:** None"]
  end.
Proof. apply debug_information_lines. reflexivity. Defined.

(** ** Line 24 and the join of line 57, once more *)

Lemma contains_cut_before f c s :
  f c = true -> Py.contains c (cut_before f s) = false.
Proof.
  intros Hc. induction s as [|a s IH]; [reflexivity|]. simpl.
  destruct (f a) eqn:Hf; [reflexivity|]. simpl.
  destruct (Ascii.eqb a c) eqn:E; [|exact IH].
  apply Ascii.eqb_eq in E. congruence.
Qed.

Lemma no_separator_no_query s :
  Py.all (fun c => negb (is_separator c)) s = true -> Py.contains "?" s = false.
Proof.
  induction s as [|a s IH]; [reflexivity|]. simpl. intros H.
  apply andb_prop in H as [Ha Hs]. destruct (Ascii.eqb a "?") eqn:E; [|auto].
  apply Ascii.eqb_eq in E. subst. discriminate Ha.
Qed.

(** X17.  What line 24 hands to the patterns never contains a '?', and
    preprocessing it again changes nothing. *)
Theorem strip_params_settled (url : string) :
  Py.contains "?" (strip_params url) = false /\
  strip_params (strip_params url) = strip_params url.
Proof.
  assert (H : Py.contains "?" (strip_params url) = false).
  { rewrite strip_params_cut. destruct (Py.contains "?" url) eqn:E; [|exact E].
    now apply contains_cut_before. }
  split; [exact H|]. unfold strip_params at 1. now rewrite H.
Qed.

(** X18.  A query string added with '?' to a URL that has no '&' and no
    '?' does not change the result. *)
Theorem query_string_ignored (url query : string) :
  Py.all (fun c => negb (is_separator c)) url = true ->
  extract_video_id (url +:+ String "?" query) = extract_video_id url.
Proof.
  intros H. rewrite (query_never_seen url query H).
  symmetry. apply no_query_no_strip. now apply no_separator_no_query.
Qed.

Lemma query_string_ignored_witness :
  extract_video_id ("https://youtu.be/LadcLQIKbNY" +:+ String "?" "si=abc&t=10") =
  extract_video_id "https://youtu.be/LadcLQIKbNY".
Proof. apply query_string_ignored. reflexivity. Defined.

Lemma split_no_separator c s : Py.contains c s = false -> Py.split c s = [s].
Proof.
  induction s as [|a s IH]; [reflexivity|]. simpl.
  destruct (Ascii.eqb a c); [discriminate|]. intros H. now rewrite (IH H).
Qed.

Lemma split_append c s t :
  Py.contains c s = false -> Py.split c (s +:+ String c t) = s :: Py.split c t.
Proof.
  induction s as [|a s IH]; intros H.
  - change ("" +:+ String c t) with (String c t). simpl. now rewrite Ascii.eqb_refl.
  - rewrite append_cons. simpl in *.
    destruct (Ascii.eqb a c); [discriminate|]. now rewrite (IH H).
Qed.

Lemma split_join_lines l :
  l <> [] ->
  Forall (fun s => Py.contains "010" s = false) l ->
  Py.split "010" (Py.join Py.nl l) = l.
Proof.
  intros Hne Hall. induction Hall as [|s l Hs Hl IH]; [congruence|].
  destruct l as [|s' l'].
  - simpl. now apply split_no_separator.
  - change (Py.join Py.nl (s :: s' :: l'))
      with (s +:+ String "010" (Py.join Py.nl (s' :: l'))).
    rewrite (split_append "010" s _ Hs). f_equal. now apply IH.
Qed.

(** X19.  One snippet per line: when no snippet text contains a newline,
    splitting the text that [get_existing_transcript] returns at the
    newlines gives back the snippets' texts, in order. *)
Theorem captions_one_per_line w url vid entries st :
  extract_video_id url = Some vid ->
  ytt_fetch w vid = Ok entries ->
  entries <> [] ->
  Forall (fun e => Py.contains "010" (text e) = false) entries ->
  exists blob,
    fst (get_existing_transcript w url st) = Ok (Some blob, "captions") /\
    Py.split "010" blob = map text entries.
Proof.
  intros Hid Hfetch Hne Hall. exists (Py.join Py.nl (map text entries)). split.
  - rewrite get_existing_transcript_run. cbn [fst].
    now rewrite (captions_result_fetched w url vid Hid), Hfetch.
  - apply split_join_lines.
    + destruct entries; [congruence|discriminate].
    + clear -Hall. induction Hall; constructor; auto.
Qed.

Lemma captions_one_per_line_witness :
  exists blob,
    fst (get_existing_transcript w_captions short_url init) = Ok (Some blob, "captions") /\
    Py.split "010" blob = map text [Entry "Hello" 0 1500; Entry "world" 1500 2000].
Proof.
  apply (captions_one_per_line w_captions short_url "LadcLQIKbNY").
  - vm_compute. reflexivity.
  - reflexivity.
  - discriminate.
  - repeat constructor.
Defined.
